(** * tasks_app: a shallow embedding of [Basic_Python/tasks_app/tasks_app.py]

    The program is an interactive task tracker.  It keeps a global list of
    task dictionaries, reads it from a pipe-delimited text file, serves a
    six-entry menu and writes the list back on exit.

    Modelling conventions.
    - A Python [str] is a [string]; a character is an [ascii], read as the
      code point of the same number (code points 0..255).
    - A text file is its decoded content.  Opening an existing file for
      reading succeeds, and so does opening the task file for writing in
      [save_tasks], where the code has no handler; [handle_file], which
      handles a failing [open], consults [open_error].  On writing, a line
      feed is written as a line feed (POSIX); on reading, the default
      universal-newlines translation is applied.
    - A file is known under the name by which the program reaches it: two
      spellings of one path are two keys of [files].
    - [input], [print], the clock and the file system are effects on an
      explicit [world]; Python exceptions are results of the monad [M]. *)

From Stdlib Require Import ZArith Ascii String.
From stdpp Require Import gmap strings list pretty.

(** ** Python string primitives *)

Module Py.

Definition LF : ascii := ascii_of_nat 10.
Definition CR : ascii := ascii_of_nat 13.
Definition nl : string := String LF EmptyString.

(** [str.isspace] for one character, on code points below 256:
    U+0009..U+000D, U+001C..U+0020, U+0085 and U+00A0. *)
Definition isspace (c : ascii) : bool :=
  let n := N_of_ascii c in
  ((9 <=? n) && (n <=? 13) || (28 <=? n) && (n <=? 32)
   || (n =? 133) || (n =? 160))%N.

(** [s.lstrip()] *)
Fixpoint lstrip (s : string) : string :=
  match s with
  | String c s' => if isspace c then lstrip s' else s
  | EmptyString => EmptyString
  end.

(** [s.rstrip()] *)
Fixpoint rstrip (s : string) : string :=
  match s with
  | String c s' =>
      match rstrip s' with
      | EmptyString => if isspace c then EmptyString else String c EmptyString
      | r => String c r
      end
  | EmptyString => EmptyString
  end.

(** [s.strip()] *)
Definition strip (s : string) : string := rstrip (lstrip s).

(** [s.split(sep)] for a one-character separator: never an empty list. *)
Fixpoint split (sep : ascii) (s : string) : list string :=
  match s with
  | String c s' =>
      if Ascii.eqb c sep then EmptyString :: split sep s'
      else match split sep s' with
           | h :: t => String c h :: t
           | [] => [String c EmptyString]
           end
  | EmptyString => [EmptyString]
  end.

(** [sep.join(l)], the inverse direction, used to state what a line is. *)
Fixpoint join (sep : ascii) (l : list string) : string :=
  match l with
  | [] => EmptyString
  | [x] => x
  | x :: l' => x +:+ String sep (join sep l')
  end.

(** [c in s] *)
Fixpoint contains (c : ascii) (s : string) : bool :=
  match s with
  | String a s' => Ascii.eqb a c || contains c s'
  | EmptyString => false
  end.

(** Text-mode reading with [newline=None]: every "\r\n" and every lone
    "\r" of the file becomes "\n". *)
Fixpoint universal_newlines (s : string) : string :=
  match s with
  | String c s' =>
      if Ascii.eqb c CR then
        String LF
          match s' with
          | String c' s'' =>
              if Ascii.eqb c' LF then universal_newlines s''
              else universal_newlines s'
          | EmptyString => EmptyString
          end
      else String c (universal_newlines s')
  | EmptyString => EmptyString
  end.

(** [for line in file]: the text cut after each "\n", terminators kept; a
    last line without terminator is yielded too. *)
Fixpoint readlines (s : string) : list string :=
  match s with
  | String c s' =>
      if Ascii.eqb c LF then nl :: readlines s'
      else match readlines s' with
           | h :: t => String c h :: t
           | [] => [String c EmptyString]
           end
  | EmptyString => []
  end.

(** Decimal digit value of an ASCII digit. *)
Definition digit (c : ascii) : option Z :=
  let n := N_of_ascii c in
  if ((48 <=? n) && (n <=? 57))%N then Some (Z.of_N n - 48)%Z else None.

(** The digit part of an [int] literal: digit groups separated by single
    underscores.  [acc] is the value read so far, [prev] tells whether the
    previous character was a digit. *)
Fixpoint int_digits (acc : Z) (prev : bool) (s : string) : option Z :=
  match s with
  | String c s' =>
      match digit c with
      | Some d => int_digits (10 * acc + d)%Z true s'
      | None =>
          if Ascii.eqb c "_" && prev then
            match s' with
            | String c' _ =>
                match digit c' with
                | Some _ => int_digits acc false s'
                | None => None
                end
            | EmptyString => None
            end
          else None
      end
  | EmptyString => if prev then Some acc else None
  end.

(** White space skipped by [int]: the ASCII blanks and, above U+007E, the
    Unicode spaces (which [int] first maps to a blank). *)
Definition int_space (c : ascii) : bool :=
  let n := N_of_ascii c in
  ((9 <=? n) && (n <=? 13) || (n =? 32) || (n =? 133) || (n =? 160))%N.

Fixpoint int_lstrip (s : string) : string :=
  match s with
  | String c s' => if int_space c then int_lstrip s' else s
  | EmptyString => EmptyString
  end.

Fixpoint int_rstrip (s : string) : string :=
  match s with
  | String c s' =>
      match int_rstrip s' with
      | EmptyString => if int_space c then EmptyString else String c EmptyString
      | r => String c r
      end
  | EmptyString => EmptyString
  end.

(** [int(s)] in base 10; [None] is [ValueError]. *)
Definition int (s : string) : option Z :=
  match int_rstrip (int_lstrip s) with
  | String c s' =>
      if Ascii.eqb c "-" then Z.opp <$> int_digits 0 false s'
      else if Ascii.eqb c "+" then int_digits 0 false s'
      else int_digits 0 false (String c s')
  | EmptyString => None
  end.

End Py.

(** ** Data model *)

(** A task is a dictionary with the four keys "task", "status",
    "created_at" and "status_updated_at", all holding strings. *)
Record Task := mkTask {
  task : string;
  status : string;
  created_at : string;
  status_updated_at : string;
}.

Definition STATUSES : list string :=
  ["Open"; "Blocked"; "In Progress"; "Review"; "Done"].

(** ** The world and the monad of the program *)

(** The exceptions of the program; [OSError] carries the text that
    [str] gives for it. *)
Inductive exn := ValueError | EOFError | IndexError | OSError (msg : string).

(** [tasks] is the global list.  [stdin] holds the lines still to be read
    (without their terminators), [stdout] the chunks written so far, oldest
    first.  [files] maps an absolute path to the text of the file there.
    [script_path] is the value of [os.path.abspath(__file__)].  [clock n]
    is what [datetime.datetime.now().strftime("%Y-%m-%d %H:%M:%S")] yields
    at the [n]-th reading, [ticks] counts the readings.  [open_error p]
    is the text of the exception that creating a file at [p] raises, if
    it cannot be created (a directory that is missing, a permission that
    is denied). *)
Record world := World {
  tasks : list Task;
  stdin : list string;
  stdout : list string;
  files : gmap string string;
  cwd : string;
  script_path : string;
  clock : nat -> string;
  ticks : nat;
  open_error : string -> option string;
}.

Definition with_tasks (ts : list Task) (w : world) : world :=
  World ts (stdin w) (stdout w) (files w) (cwd w) (script_path w) (clock w) (ticks w)
    (open_error w).
Definition with_stdin (i : list string) (w : world) : world :=
  World (tasks w) i (stdout w) (files w) (cwd w) (script_path w) (clock w) (ticks w)
    (open_error w).
Definition with_stdout (o : list string) (w : world) : world :=
  World (tasks w) (stdin w) o (files w) (cwd w) (script_path w) (clock w) (ticks w)
    (open_error w).
Definition with_files (f : gmap string string) (w : world) : world :=
  World (tasks w) (stdin w) (stdout w) f (cwd w) (script_path w) (clock w) (ticks w)
    (open_error w).
Definition with_ticks (n : nat) (w : world) : world :=
  World (tasks w) (stdin w) (stdout w) (files w) (cwd w) (script_path w) (clock w) n
    (open_error w).

Inductive result (A : Type) :=
  | Ret (a : A)
  | Raise (e : exn).
Arguments Ret {A} a.
Arguments Raise {A} e.

Definition M (A : Type) : Type := world -> result A * world.

Definition ret {A} (a : A) : M A := fun w => (Ret a, w).

Definition bind {A B} (m : M A) (k : A -> M B) : M B := fun w =>
  match m w with
  | (Ret a, w') => k a w'
  | (Raise e, w') => (Raise e, w')
  end.

Definition raise {A} (e : exn) : M A := fun w => (Raise e, w).

Declare Scope py_scope.
Delimit Scope py_scope with py.
Notation "x <- m ;; k" := (bind m (fun x => k))
  (at level 100, m at next level, k at level 200, right associativity,
   only parsing) : py_scope.
Notation "m ;; k" := (bind m (fun _ => k))
  (at level 100, k at level 200, right associativity, only parsing) : py_scope.
Local Open Scope py_scope.

(** [try: body except ValueError: handler] *)
Definition try_except_ValueError {A} (body handler : M A) : M A := fun w =>
  match body w with
  | (Raise ValueError, w') => handler w'
  | r => r
  end.

(** [for x in l: f x] *)
Fixpoint for_each {A} (l : list A) (f : A -> M unit) : M unit :=
  match l with
  | [] => ret tt
  | x :: l' => f x ;; for_each l' f
  end.

(** [enumerate(l, start)] *)
Fixpoint enumerate {A} (start : nat) (l : list A) : list (nat * A) :=
  match l with
  | [] => []
  | x :: l' => (start, x) :: enumerate (S start) l'
  end.

(** [print(s)] *)
Definition print (s : string) : M unit := fun w =>
  (Ret tt, with_stdout (stdout w ++ [s +:+ Py.nl]) w).

(** [input(prompt)]: the prompt is written, one line is read; at the end
    of the input [EOFError] is raised. *)
Definition input (prompt : string) : M string := fun w =>
  let w1 := with_stdout (stdout w ++ [prompt]) w in
  match stdin w with
  | l :: rest => (Ret l, with_stdin rest w1)
  | [] => (Raise EOFError, w1)
  end.

(** [int(s)] *)
Definition py_int (s : string) : M Z :=
  match Py.int s with
  | Some z => ret z
  | None => raise ValueError
  end.

(** [datetime.datetime.now().strftime("%Y-%m-%d %H:%M:%S")] *)
Definition now_strftime : M string := fun w =>
  (Ret (clock w (ticks w)), with_ticks (S (ticks w)) w).

Definition get_tasks : M (list Task) := fun w => (Ret (tasks w), w).
Definition put_tasks (ts : list Task) : M unit := fun w =>
  (Ret tt, with_tasks ts w).

(** The position a Python subscript [i] denotes in a list of length [n]:
    negative subscripts count from the end. *)
Definition py_index (n : nat) (i : Z) : option nat :=
  if (0 <=? i)%Z then
    if (i <? Z.of_nat n)%Z then Some (Z.to_nat i) else None
  else
    if (0 <=? Z.of_nat n + i)%Z then Some (Z.to_nat (Z.of_nat n + i)) else None.

(** [l[i]] *)
Definition getitem {A} (l : list A) (i : Z) : M A :=
  match py_index (length l) i with
  | Some k => match l !! k with Some x => ret x | None => raise IndexError end
  | None => raise IndexError
  end.

(** [tasks[i][key] = v], the dictionary being updated in place. *)
Definition setitem_field (i : Z) (upd : Task -> Task) : M unit :=
  ts <- get_tasks ;;
  match py_index (length ts) i with
  | Some k =>
      match ts !! k with
      | Some t => put_tasks (<[k := upd t]> ts)
      | None => raise IndexError
      end
  | None => raise IndexError
  end.

Definition set_status (v : string) (t : Task) : Task :=
  mkTask (task t) v (created_at t) (status_updated_at t).
Definition set_status_updated_at (v : string) (t : Task) : Task :=
  mkTask (task t) (status t) (created_at t) v.

(** [tasks.pop(i)] *)
Definition pop_task (i : Z) : M Task :=
  ts <- get_tasks ;;
  match py_index (length ts) i with
  | Some k =>
      match ts !! k with
      | Some t => put_tasks (delete k ts) ;; ret t
      | None => raise IndexError
      end
  | None => raise IndexError
  end.

(** ** Paths and files *)

Module OsPath.

Definition sep : ascii := "/"%char.

(** [p[:p.rfind('/') + 1]] *)
Fixpoint upto_last_sep (p : string) : string :=
  match p with
  | String c p' =>
      match upto_last_sep p' with
      | EmptyString => if Ascii.eqb c sep then String c EmptyString else EmptyString
      | r => String c r
      end
  | EmptyString => EmptyString
  end.

(** [s.rstrip('/')] *)
Fixpoint rstrip_sep (s : string) : string :=
  match s with
  | String c s' =>
      match rstrip_sep s' with
      | EmptyString => if Ascii.eqb c sep then EmptyString else String c EmptyString
      | r => String c r
      end
  | EmptyString => EmptyString
  end.

(** [os.path.dirname(p)]: the head up to the last separator, without its
    trailing separators unless it consists of separators only. *)
Definition dirname (p : string) : string :=
  let head := upto_last_sep p in
  match rstrip_sep head with
  | EmptyString => head
  | r => r
  end.

Definition startswith_sep (p : string) : bool :=
  match p with
  | String c _ => Ascii.eqb c sep
  | EmptyString => false
  end.

Fixpoint endswith_sep (p : string) : bool :=
  match p with
  | String c EmptyString => Ascii.eqb c sep
  | String _ p' => endswith_sep p'
  | EmptyString => false
  end.

(** [os.path.join(a, b)] *)
Definition join (a b : string) : string :=
  if startswith_sep b then b
  else match a with
       | EmptyString => b
       | _ => if endswith_sep a then a +:+ b else a +:+ String sep b
       end.

End OsPath.

(** The file a name passed to [open] or [os.path.exists] denotes: a
    relative name is taken from the working directory of the process.
    The name is kept as it is written. *)
Definition resolve (w : world) (filename : string) : string :=
  OsPath.join (cwd w) filename.

(** [os.path.exists(filename)] *)
Definition path_exists (filename : string) : M bool := fun w =>
  (Ret (bool_decide (is_Some (files w !! resolve w filename))), w).

(** [open(filename, "w")] followed by the writes of [text]: the file is
    created or replaced. *)
Definition write_file (filename text : string) : M unit := fun w =>
  (Ret tt, with_files (<[resolve w filename := text]> (files w)) w).

(** [open(filename, "r")]: the lines of the file. *)
Definition read_lines (filename : string) : M (list string) := fun w =>
  (Ret (Py.readlines (Py.universal_newlines
          (default EmptyString (files w !! resolve w filename)))), w).

(** ** The program *)

Definition default_filename : string := "tasks.txt".

(** [with open(file_path, 'w') as f: f.write("")] in [handle_file]: an
    empty file is created, unless the open fails with [OSError]. *)
Definition create_empty (file_path : string) : M unit := fun w =>
  match open_error w (resolve w file_path) with
  | Some msg => (Raise (OSError msg), w)
  | None => write_file file_path EmptyString w
  end.

(** [str(e)]: the text of an exception.  Only [OSError] is raised where
    the text is used, and only its text is modelled. *)
Definition exn_text (e : exn) : string :=
  match e with
  | OSError msg => msg
  | _ => EmptyString
  end.

(** [try: body except Exception as e: handler] *)
Definition try_except_Exception {A} (body : M A) (handler : exn -> M A) : M A :=
  fun w =>
    match body w with
    | (Raise e, w') => handler e w'
    | r => r
    end.

(** [handle_file]: the file beside the program is created empty if it is
    missing and its path is returned; when that fails, the error is
    printed and [None] is returned. *)
Definition handle_file (filename : string) : M (option string) := fun w =>
  try_except_Exception
    (let script_dir := OsPath.dirname (script_path w) in
     let file_path := OsPath.join script_dir filename in
     e <- path_exists file_path ;;
     (if negb e then create_empty file_path else ret tt) ;;
     ret (Some file_path))
    (fun e => print ("Error handling file: " +:+ exn_text e) ;; ret None) w.

(** The body of the loop of [load_tasks] for one line. *)
Definition load_line (line : string) : M unit :=
  let parts := Py.split "|" (Py.strip line) in
  match parts with
  | [task_name; st; created; updated] =>
      ts <- get_tasks ;;
      put_tasks (ts ++ [mkTask task_name st created updated])
  | _ => ret tt
  end.

Definition load_tasks (filename : string) : M unit :=
  e <- path_exists filename ;;
  if e then
    lines <- read_lines filename ;;
    for_each lines load_line
  else ret tt.

(** The text written for one task by [save_tasks]. *)
Definition format_task (t : Task) : string :=
  task t +:+ "|" +:+ status t +:+ "|" +:+ created_at t +:+ "|" +:+
  status_updated_at t +:+ Py.nl.

Definition save_tasks (filename : string) : M unit :=
  ts <- get_tasks ;;
  write_file filename (foldl (fun acc t => acc +:+ format_task t) EmptyString ts).

Definition menu_lines : list string :=
  [ Py.nl +:+ "--- Tasks List Menu ---";
    "1. View tasks";
    "2. Add a new task";
    "3. Edit a task";
    "4. Change task status";
    "5. Remove a task";
    "6. Exit" ].

Definition display_menu : M unit := for_each menu_lines print.

Definition view_line (it : nat * Task) : string :=
  let '(index, t) := it in
  pretty index +:+ ". " +:+ task t +:+ " [" +:+ status t +:+ "]" +:+ Py.nl +:+
  "   Created: " +:+ created_at t +:+ Py.nl +:+
  "   Last Status Change: " +:+ status_updated_at t.

Definition view_tasks : M unit :=
  ts <- get_tasks ;;
  match ts with
  | [] => print "No tasks found!"
  | _ =>
      print (Py.nl +:+ "Your Tasks:") ;;
      for_each (enumerate 1 ts) (fun it => print (view_line it))
  end.

Definition add_task : M unit :=
  line <- input "Enter a new task: " ;;
  let task_name := Py.strip line in
  match task_name with
  | EmptyString => ret tt
  | _ =>
      now <- now_strftime ;;
      ts <- get_tasks ;;
      put_tasks (ts ++ [mkTask task_name "Open" now now]) ;;
      print ("Task '" +:+ task_name +:+ "' added successfully with status 'Open'.")
  end.

(** [0 <= index < n] *)
Definition in_range (index : Z) (n : nat) : bool :=
  ((0 <=? index) && (index <? Z.of_nat n))%Z.

Definition update_task_status : M unit :=
  view_tasks ;;
  ts <- get_tasks ;;
  match ts with
  | [] => print "No tasks available to update status."
  | _ =>
      try_except_ValueError
        (line <- input "Enter the task number to update status: " ;;
         n <- py_int line ;;
         let index := (n - 1)%Z in
         ts <- get_tasks ;;
         if in_range index (length ts) then
           print (Py.nl +:+ "Available statuses:") ;;
           for_each (enumerate 1 STATUSES)
             (fun it => print (pretty (fst it) +:+ ". " +:+ snd it)) ;;
           line2 <- input "Choose a status number: " ;;
           m <- py_int line2 ;;
           let status_choice := (m - 1)%Z in
           if in_range status_choice (length STATUSES) then
             st <- getitem STATUSES status_choice ;;
             setitem_field index (set_status st) ;;
             now <- now_strftime ;;
             setitem_field index (set_status_updated_at now) ;;
             ts <- get_tasks ;;
             t <- getitem ts index ;;
             print ("Task '" +:+ task t +:+ "' status updated.")
           else ret tt
         else ret tt)
        (print "Please enter a valid number.")
  end.

Definition remove_task : M unit :=
  view_tasks ;;
  ts <- get_tasks ;;
  match ts with
  | [] => ret tt
  | _ =>
      try_except_ValueError
        (line <- input "Enter the task number to remove: " ;;
         n <- py_int line ;;
         let index := (n - 1)%Z in
         ts <- get_tasks ;;
         if in_range index (length ts) then
           removed <- pop_task index ;;
           print ("Task '" +:+ task removed +:+ "' removed successfully!")
         else ret tt)
        (print "Please enter a valid number.")
  end.

(** The [if]/[elif] chain of the loop of [main] on the trimmed choice; the
    result tells whether [break] was reached.  A choice that matches no
    branch does nothing. *)
Definition dispatch (choice : string) : M bool :=
  if String.eqb choice "1" then view_tasks ;; ret false
  else if String.eqb choice "2" then add_task ;; ret false
  else if String.eqb choice "3" then
    print "Editing task functionality not implemented yet." ;; ret false
  else if String.eqb choice "4" then update_task_status ;; ret false
  else if String.eqb choice "5" then remove_task ;; ret false
  else if String.eqb choice "6" then
    save_tasks default_filename ;;
    print "Tasks saved, Goodbye!" ;;
    ret true
  else ret false.

(** One turn of the loop of [main]. *)
Definition main_turn : M bool :=
  display_menu ;;
  line <- input "Choose an option (1-6): " ;;
  dispatch (Py.strip line).

(** [while True: ...], unfolded at most [fuel] times; [None] when the fuel
    runs out before the loop is left. *)
Fixpoint main_loop (fuel : nat) (w : world) : option (result unit * world) :=
  match fuel with
  | O => None
  | S fuel' =>
      match main_turn w with
      | (Ret true, w') => Some (Ret tt, w')
      | (Ret false, w') => main_loop fuel' w'
      | (Raise e, w') => Some (Raise e, w')
      end
  end.

Definition main (fuel : nat) (w : world) : option (result unit * world) :=
  match load_tasks default_filename w with
  | (Ret _, w') => main_loop fuel w'
  | (Raise e, w') => Some (Raise e, w')
  end.

(** ** Notions used to state the properties *)

(** Number of occurrences of a character. *)
Fixpoint count (c : ascii) (s : string) : nat :=
  match s with
  | String a s' => (if Ascii.eqb a c then 1 else 0) + count c s'
  | EmptyString => 0
  end.

(** The task a line of the file stands for, if it has four fields. *)
Definition parse_line (line : string) : option Task :=
  match Py.split "|" (Py.strip line) with
  | [task_name; st; created; updated] => Some (mkTask task_name st created updated)
  | _ => None
  end.

(** The lines of a file as the program reads them, and the tasks in them. *)
Definition file_lines (content : string) : list string :=
  Py.readlines (Py.universal_newlines content).
Definition file_records (content : string) : list Task :=
  omap parse_line (file_lines content).

(** The text [save_tasks] writes for a list. *)
Definition render (ts : list Task) : string :=
  foldl (fun acc t => acc +:+ format_task t) EmptyString ts.

(** The record of a task without its line terminator. *)
Definition record (t : Task) : string :=
  Py.join "|" [task t; status t; created_at t; status_updated_at t].

(** A field that can be written and read back: no delimiter and no line
    break in it. *)
Definition plain (s : string) : bool :=
  negb (Py.contains "|" s) && negb (Py.contains Py.LF s) &&
  negb (Py.contains Py.CR s).

(** A task that survives saving and loading: plain fields, a title that
    does not start with white space and a [status_updated_at] that does
    not end with white space. *)
Definition storable (t : Task) : bool :=
  plain (task t) && plain (status t) && plain (created_at t) &&
  plain (status_updated_at t) &&
  String.eqb (Py.lstrip (task t)) (task t) &&
  String.eqb (Py.rstrip (status_updated_at t)) (status_updated_at t).

(** The status is one of the five labels. *)
Definition status_ok (t : Task) : bool :=
  bool_decide (status t ∈ STATUSES).

(** What a session has read and written, apart from the task list. *)
Definition consumed (n : nat) (out : list string) (w : world) : world :=
  with_stdout (stdout w ++ out) (with_stdin (drop n (stdin w)) w).

(** The entries of the menu as the loop compares them. *)
Definition menu_choices : list string := ["1"; "2"; "3"; "4"; "5"; "6"].

(** The chunks written by [display_menu] and the prompt of the loop. *)
Definition menu_output : list string :=
  map (fun s => s +:+ Py.nl) menu_lines ++ ["Choose an option (1-6): "].

(** The chunks written by [view_tasks] for a list. *)
Definition view_output (ts : list Task) : list string :=
  match ts with
  | [] => ["No tasks found!" +:+ Py.nl]
  | _ => (Py.nl +:+ "Your Tasks:" +:+ Py.nl)
         :: map (fun it => view_line it +:+ Py.nl) (enumerate 1 ts)
  end.

(** The chunks written when the statuses are offered. *)
Definition status_menu : list string :=
  (Py.nl +:+ "Available statuses:" +:+ Py.nl)
  :: map (fun it => pretty (fst it) +:+ ". " +:+ snd it +:+ Py.nl)
       (enumerate 1 STATUSES).

(** Worlds after a prompt, after an answered prompt, after a [print],
    after [view_tasks]. *)
Definition asked (prompt : string) (w : world) : world :=
  with_stdout (stdout w ++ [prompt]) w.
Definition answered (prompt : string) (w : world) : world :=
  with_stdin (tail (stdin w)) (asked prompt w).
Definition printed (s : string) (w : world) : world :=
  with_stdout (stdout w ++ [s +:+ Py.nl]) w.
Definition viewed (w : world) : world :=
  with_stdout (stdout w ++ view_output (tasks w)) w.

(** The world after [display_menu]. *)
Definition shown (w : world) : world :=
  with_stdout (stdout w ++ map (fun s => s +:+ Py.nl) menu_lines) w.

(** How an operation of the menu leaves the world: the files, the working
    directory and the clock are as before, some lines of the input are used up,
    and either the operation returns or the input has run out. *)
Definition op_frame (w : world) (r : result unit) (w' : world) : Prop :=
  files w' = files w /\ cwd w' = cwd w /\ clock w' = clock w /\
  (exists n, stdin w' = drop n (stdin w)) /\
  (r = Ret tt \/ (r = Raise EOFError /\ stdin w' = [])).

(** The two ways the loop ends.  A normal exit: a line that trims to "6"
    was read as a choice, the list was saved under the default name in
    the working directory and the farewell was printed last.  An
    exhausted input: [input] raised [EOFError] and nothing was saved. *)
Definition normal_exit (w w' : world) : Prop :=
  (exists pre c, stdin w = pre ++ c :: stdin w' /\ Py.strip c = "6") /\
  cwd w' = cwd w /\
  files w' = <[resolve w default_filename := render (tasks w')]> (files w) /\
  last (stdout w') = Some ("Tasks saved, Goodbye!" +:+ Py.nl).

Definition input_exhausted (w w' : world) : Prop :=
  stdin w' = [] /\ files w' = files w.

(** A clock reading that can be stored as it is: plain, and no white
    space at its end. *)
Definition stamp_ok (s : string) : bool :=
  plain s && String.eqb (Py.rstrip s) s.

(** A session whose list can be saved and read back: the tasks it holds
    are storable, the lines still to be typed are plain and the clock
    yields storable readings. *)
Definition session_ok (w : world) : Prop :=
  Forall (fun t => storable t = true) (tasks w) /\
  Forall (fun l => plain l = true) (stdin w) /\
  forall n, stamp_ok (clock w n) = true.

(** A task whose fields hold no line break, and a task with a pipe in
    some field. *)
Definition line_safe (t : Task) : bool :=
  forallb (fun s => negb (Py.contains Py.LF s) && negb (Py.contains Py.CR s))
    [task t; status t; created_at t; status_updated_at t].
Definition piped (t : Task) : bool :=
  existsb (Py.contains "|") [task t; status t; created_at t; status_updated_at t].

(** White space only; white space at the start; white space at the end. *)
Fixpoint all_space (s : string) : bool :=
  match s with
  | String c s' => Py.isspace c && all_space s'
  | EmptyString => true
  end.
Definition head_space (s : string) : bool :=
  match s with
  | String c _ => Py.isspace c
  | EmptyString => false
  end.
Fixpoint last_space (s : string) : bool :=
  match s with
  | String c EmptyString => Py.isspace c
  | String _ s' => last_space s'
  | EmptyString => false
  end.

(** A 1-based position of a list of [n] elements. *)
Definition valid_position (pos : Z) (n : nat) : Prop :=
  (1 <= pos <= Z.of_nat n)%Z.

(** ** Sample sessions *)

Definition sample_clock (n : nat) : string := "2026-11-03 10:00:0" +:+ pretty n.

(** A session in the directory /home/u of a program installed in
    /opt/app, where every file can be created. *)
Definition session (ts : list Task) (inp : list string)
    (fs : gmap string string) : world :=
  World ts inp [] fs "/home/u" "/opt/app/tasks_app.py" sample_clock 0
    (fun _ => None).

Definition milk : Task :=
  mkTask "Buy milk" "Open" "2026-11-02 09:00:00" "2026-11-02 09:00:00".
Definition bread : Task :=
  mkTask "Bake bread" "Review" "2026-11-02 09:30:00" "2026-11-02 18:00:00".

(** A title that starts with a blank, and one with a carriage return in
    it: neither holds a pipe. *)
Definition blank_title : Task :=
  mkTask " a" "Open" "2026-11-02 09:00:00" "2026-11-02 09:00:00".
Definition cr_title : Task :=
  mkTask ("a" +:+ String Py.CR "b") "Open" "2026-11-02 09:00:00" "2026-11-02 09:00:00".

(** A file with one well-formed line and one line of two fields. *)
Definition two_line_file : string :=
  "Buy milk|Open|2026-11-02 09:00:00|2026-11-02 09:00:00" +:+ Py.nl +:+
  "broken|line" +:+ Py.nl.

(** A file whose only record carries a label outside the fixed set. *)
Definition bogus_file : string := "a|Bogus|x|y" +:+ Py.nl.

(** A task stamped later than the sample clock ever reads. *)
Definition future : Task :=
  mkTask "Plan" "Open" "2999-01-01 00:00:00" "2999-01-01 00:00:00".

(** A title with a pipe in it. *)
Definition piped_title : Task :=
  mkTask "a|b" "Open" "2026-11-02 09:00:00" "2026-11-02 09:00:00".

(** A file system in which /opt/app/nodir is no directory. *)
Definition missing_directory (p : string) : option string :=
  if String.eqb p "/opt/app/nodir/tasks.txt"
  then Some "[Errno 2] No such file or directory: '/opt/app/nodir/tasks.txt'"
  else None.

(** * Properties *)

(** ** The primitives on examples *)

Example strip_ex : Py.strip ("  a b " +:+ Py.nl) = "a b".
Proof. reflexivity. Qed.

Example split_ex : Py.split "|" "a||b|" = ["a"; EmptyString; "b"; EmptyString].
Proof. reflexivity. Qed.

Example readlines_ex :
  Py.readlines (Py.universal_newlines
    ("a" +:+ String Py.CR (String Py.LF ("b" +:+ String Py.CR "c"))))
  = ["a" +:+ Py.nl; "b" +:+ Py.nl; "c"].
Proof. reflexivity. Qed.

Example int_ex :
  Py.int " 12 " = Some 12%Z /\ Py.int "-3" = Some (-3)%Z /\
  Py.int "1_0" = Some 10%Z /\ Py.int "1__0" = None /\ Py.int "_1" = None /\
  Py.int "1_" = None /\ Py.int EmptyString = None /\ Py.int "abc" = None /\
  Py.int "+" = None /\ Py.int "007" = Some 7%Z.
Proof. repeat split; reflexivity. Qed.

Example dirname_ex :
  OsPath.dirname "/opt/app/tasks_app.py" = "/opt/app" /\
  OsPath.dirname "tasks_app.py" = EmptyString /\
  OsPath.dirname "/tasks_app.py" = "/" /\
  OsPath.join "/opt/app" "tasks.txt" = "/opt/app/tasks.txt" /\
  OsPath.join "/opt/app/" "tasks.txt" = "/opt/app/tasks.txt" /\
  OsPath.join "/opt/app" "/tmp/t" = "/tmp/t".
Proof. repeat split; reflexivity. Qed.

(** ** Strings *)

Section StringFacts.

Implicit Types (s r x y : string) (c a sep : ascii) (l : list string).

Lemma append_nil_l s : EmptyString +:+ s = s.
Proof. reflexivity. Qed.

Lemma append_cons c s r : String c s +:+ r = String c (s +:+ r).
Proof. reflexivity. Qed.

Lemma append_nil_r s : s +:+ EmptyString = s.
Proof. induction s as [|c s IH]; [done|]. by rewrite append_cons, IH. Qed.

Lemma append_assoc s r x : (s +:+ r) +:+ x = s +:+ (r +:+ x).
Proof. induction s as [|c s IH]; [done|]. by rewrite !append_cons, IH. Qed.

Lemma contains_app c s r :
  Py.contains c (s +:+ r) = Py.contains c s || Py.contains c r.
Proof.
  induction s as [|a s IH]; [done|].
  rewrite append_cons. simpl. rewrite IH. by rewrite orb_assoc.
Qed.

(** *** [split] and [join] *)

Lemma split_length sep s : length (Py.split sep s) = S (count sep s).
Proof.
  induction s as [|a s IH]; simpl; [done|].
  destruct (Ascii.eqb a sep); simpl; [by rewrite IH|].
  destruct (Py.split sep s); simpl in *; lia.
Qed.

Lemma split_no_sep sep s : Py.contains sep s = false -> Py.split sep s = [s].
Proof.
  induction s as [|a s IH]; simpl; [done|].
  destruct (Ascii.eqb a sep); simpl; [done|].
  intros H. by rewrite IH.
Qed.

Lemma split_app_sep sep x r :
  Py.contains sep x = false ->
  Py.split sep (x +:+ String sep r) = x :: Py.split sep r.
Proof.
  induction x as [|a x IH]; simpl.
  - intros _. by rewrite Ascii.eqb_refl.
  - destruct (Ascii.eqb a sep) eqn:E; simpl; [done|].
    intros H. by rewrite IH.
Qed.

Lemma split_join sep l :
  l <> [] -> Forall (fun x => Py.contains sep x = false) l ->
  Py.split sep (Py.join sep l) = l.
Proof.
  induction l as [|x l IH]; [done|].
  intros _ H. apply Forall_cons in H as [Hx Hl].
  destruct l as [|y l]; [by apply split_no_sep|].
  change (Py.join sep (x :: y :: l)) with (x +:+ String sep (Py.join sep (y :: l))).
  rewrite split_app_sep by done. by rewrite IH.
Qed.

Lemma join_split sep s : Py.join sep (Py.split sep s) = s.
Proof.
  induction s as [|a s IH]; simpl; [done|].
  destruct (Ascii.eqb a sep) eqn:E.
  - apply Ascii.eqb_eq in E as ->.
    pose proof (split_length sep s) as Hl.
    destruct (Py.split sep s) as [|h t] eqn:Hs; [done|].
    change (Py.join sep (EmptyString :: h :: t))
      with (EmptyString +:+ String sep (Py.join sep (h :: t))).
    by rewrite IH.
  - pose proof (split_length sep s) as Hl.
    destruct (Py.split sep s) as [|h t] eqn:Hs; [done|].
    destruct t as [|h' t].
    + simpl in *. by subst.
    + change (Py.join sep (String a h :: h' :: t))
        with (String a (h +:+ String sep (Py.join sep (h' :: t)))).
      by rewrite <- IH.
Qed.

Lemma split_fields sep s :
  Forall (fun x => Py.contains sep x = false) (Py.split sep s).
Proof.
  induction s as [|a s IH]; simpl; [by constructor|].
  destruct (Ascii.eqb a sep) eqn:E; [by constructor|].
  destruct (Py.split sep s) as [|h t]; [constructor; [simpl; by rewrite E|done]|].
  apply Forall_cons in IH as [Hh Ht].
  constructor; [simpl; by rewrite E|done].
Qed.

(** Every field of a split string is a part of it. *)
Lemma split_fields_sub c sep s :
  Py.contains c s = false ->
  Forall (fun x => Py.contains c x = false) (Py.split sep s).
Proof.
  induction s as [|a s IH]; simpl; [by constructor|].
  intros [Ha Hs]%orb_false_elim. specialize (IH Hs).
  destruct (Ascii.eqb a sep); [by constructor|].
  destruct (Py.split sep s) as [|h t]; [constructor; [simpl; by rewrite Ha|done]|].
  apply Forall_cons in IH as [Hh Ht].
  constructor; [simpl; by rewrite Ha, Hh|done].
Qed.

(** *** [strip] *)

Lemma lstrip_app s r :
  Py.lstrip (s +:+ r) =
  match Py.lstrip s with
  | EmptyString => Py.lstrip r
  | x => x +:+ r
  end.
Proof.
  induction s as [|a s IH]; [reflexivity|].
  simpl. by destruct (Py.isspace a).
Qed.

Lemma rstrip_app_blank s r :
  Py.rstrip r = EmptyString -> Py.rstrip (s +:+ r) = Py.rstrip s.
Proof.
  intros Hr. induction s as [|a s IH]; [done|].
  rewrite append_cons. simpl. by rewrite IH.
Qed.

Lemma strip_app_nl s : Py.strip (s +:+ Py.nl) = Py.strip s.
Proof.
  unfold Py.strip. rewrite lstrip_app.
  destruct (Py.lstrip s) as [|a x] eqn:E; [done|].
  by apply rstrip_app_blank.
Qed.

Lemma lstrip_head s :
  match Py.lstrip s with
  | String a _ => Py.isspace a = false
  | EmptyString => True
  end.
Proof.
  induction s as [|a s IH]; simpl; [done|].
  by destruct (Py.isspace a) eqn:E.
Qed.

Lemma lstrip_fixed a s : Py.isspace a = false -> Py.lstrip (String a s) = String a s.
Proof. intros H. simpl. by rewrite H. Qed.

Lemma rstrip_head a s :
  Py.isspace a = false -> exists r, Py.rstrip (String a s) = String a r.
Proof. intros H. simpl. rewrite H. destruct (Py.rstrip s); eauto. Qed.

Lemma rstrip_idem s : Py.rstrip (Py.rstrip s) = Py.rstrip s.
Proof.
  induction s as [|a s IH]; simpl; [done|].
  destruct (Py.rstrip s) as [|b r] eqn:E.
  - destruct (Py.isspace a) eqn:Ha; simpl; [done|by rewrite Ha].
  - change (Py.rstrip (String a (String b r)))
      with (match Py.rstrip (String b r) with
            | EmptyString => if Py.isspace a then EmptyString else String a EmptyString
            | x => String a x
            end).
    by rewrite IH.
Qed.

Lemma strip_idem s : Py.strip (Py.strip s) = Py.strip s.
Proof.
  unfold Py.strip. pose proof (lstrip_head s) as H.
  destruct (Py.lstrip s) as [|a x] eqn:E; [done|].
  destruct (rstrip_head a x H) as [r Hr].
  rewrite Hr, lstrip_fixed by done. by rewrite <- Hr, rstrip_idem.
Qed.

Lemma count_lstrip c s : Py.isspace c = false -> count c (Py.lstrip s) = count c s.
Proof.
  intros Hc. induction s as [|a s IH]; simpl; [done|].
  destruct (Py.isspace a) eqn:Ha; simpl; [|done].
  destruct (Ascii.eqb a c) eqn:E; [|done].
  apply Ascii.eqb_eq in E. congruence.
Qed.

Lemma count_rstrip c s : Py.isspace c = false -> count c (Py.rstrip s) = count c s.
Proof.
  intros Hc. induction s as [|a s IH]; simpl; [done|].
  destruct (Py.rstrip s) as [|b r] eqn:E.
  - simpl in IH. rewrite <- IH.
    destruct (Py.isspace a) eqn:Ha; simpl; [|lia].
    destruct (Ascii.eqb a c) eqn:E'; [|done].
    apply Ascii.eqb_eq in E'. congruence.
  - simpl. simpl in IH. lia.
Qed.

Lemma lstrip_app_nonspace x c y :
  Py.isspace c = false ->
  Py.lstrip (x +:+ String c y) = Py.lstrip x +:+ String c y.
Proof.
  intros Hc. induction x as [|a x IH]; simpl; [by rewrite Hc|].
  by destruct (Py.isspace a).
Qed.

Lemma rstrip_cons_nonspace c y :
  Py.isspace c = false -> Py.rstrip (String c y) = String c (Py.rstrip y).
Proof. intros Hc. simpl. rewrite Hc. by destruct (Py.rstrip y). Qed.

Lemma rstrip_app_nonspace x c y :
  Py.isspace c = false ->
  Py.rstrip (x +:+ String c y) = x +:+ String c (Py.rstrip y).
Proof.
  intros Hc. induction x as [|a x IH].
  - by apply rstrip_cons_nonspace.
  - rewrite !append_cons.
    change (Py.rstrip (String a (x +:+ String c y)))
      with (match Py.rstrip (x +:+ String c y) with
            | EmptyString => if Py.isspace a then EmptyString else String a EmptyString
            | r => String a r
            end).
    rewrite IH. by destruct x.
Qed.

(** Parts of a string hold no character the string does not hold. *)
Lemma contains_lstrip c s :
  Py.contains c s = false -> Py.contains c (Py.lstrip s) = false.
Proof.
  induction s as [|a s IH]; simpl; [done|].
  intros [Ha Hs]%orb_false_elim.
  destruct (Py.isspace a); [auto|]. simpl. by rewrite Ha, Hs.
Qed.

Lemma contains_rstrip c s :
  Py.contains c s = false -> Py.contains c (Py.rstrip s) = false.
Proof.
  induction s as [|a s IH]; simpl; [done|].
  intros [Ha Hs]%orb_false_elim. specialize (IH Hs).
  destruct (Py.rstrip s) as [|b r].
  - destruct (Py.isspace a); [done|]. simpl. by rewrite Ha.
  - cbn [Py.contains] in *. by rewrite Ha, IH.
Qed.

Lemma contains_strip c s :
  Py.contains c s = false -> Py.contains c (Py.strip s) = false.
Proof. intros H. by apply contains_rstrip, contains_lstrip. Qed.

(** Stripping a line does not change the number of its fields. *)
Lemma split_strip_length s :
  length (Py.split "|" (Py.strip s)) = length (Py.split "|" s).
Proof.
  rewrite !split_length. unfold Py.strip.
  by rewrite count_rstrip, count_lstrip.
Qed.

(** *** Lines of a file *)

Lemma universal_newlines_id s :
  Py.contains Py.CR s = false -> Py.universal_newlines s = s.
Proof.
  induction s as [|a s IH]; simpl; [done|].
  intros [Ha Hs]%orb_false_elim. rewrite Ha. by rewrite IH.
Qed.

Lemma readlines_line x r :
  Py.contains Py.LF x = false ->
  Py.readlines (x +:+ Py.nl +:+ r) = (x +:+ Py.nl) :: Py.readlines r.
Proof.
  induction x as [|a x IH]; simpl.
  - intros _. reflexivity.
  - intros [Ha Hx]%orb_false_elim. by rewrite Ha, IH.
Qed.

(** The lines read never hold a line feed before their end, and none is
    empty. *)
Lemma readlines_lines s :
  Forall (fun x => exists y, Py.contains Py.LF y = false /\
                    (x = y +:+ Py.nl \/ (x = y /\ y <> EmptyString)))
         (Py.readlines s).
Proof.
  induction s as [|a s IH]; simpl; [by constructor|].
  destruct (Ascii.eqb a Py.LF) eqn:E.
  - constructor; [|done]. exists EmptyString. split; [done|by left].
  - destruct (Py.readlines s) as [|h t].
    + constructor; [|done]. exists (String a EmptyString). split; [simpl; by rewrite E|by right].
    + apply Forall_cons in IH as [(y & Hy & Hh) Ht].
      constructor; [|done]. exists (String a y). split; [simpl; by rewrite E|].
      destruct Hh as [->|[-> _]]; [left; by rewrite append_cons|by right].
Qed.

Lemma universal_newlines_no_cr_aux s :
  Py.contains Py.CR (Py.universal_newlines s) = false /\
  forall a, Py.contains Py.CR (Py.universal_newlines (String a s)) = false.
Proof.
  induction s as [|b s [IH1 IH2]].
  - split; [done|]. intros a. simpl. by destruct (Ascii.eqb a Py.CR) eqn:E; simpl; rewrite ?E.
  - split; [apply IH2|]. intros a.
    change (Py.universal_newlines (String a (String b s))) with
      (if Ascii.eqb a Py.CR then
         String Py.LF (if Ascii.eqb b Py.LF then Py.universal_newlines s
                       else Py.universal_newlines (String b s))
       else String a (Py.universal_newlines (String b s))).
    destruct (Ascii.eqb a Py.CR) eqn:E.
    + destruct (Ascii.eqb b Py.LF); simpl; [apply IH1|apply IH2].
    + cbn [Py.contains]. rewrite E. apply IH2.
Qed.

Lemma universal_newlines_no_cr s :
  Py.contains Py.CR (Py.universal_newlines s) = false.
Proof. apply universal_newlines_no_cr_aux. Qed.

End StringFacts.

(** ** The world and the monad *)

Lemma with_tasks_id w : with_tasks (tasks w) w = w.
Proof. by destruct w. Qed.

Lemma bind_eq {A B} (m : M A) (k : A -> M B) w a w' :
  m w = (Ret a, w') -> bind m k w = k a w'.
Proof. unfold bind. by intros ->. Qed.

(** ** Persistence *)

Lemma load_line_eq line w :
  load_line line w =
  (Ret tt, with_tasks (tasks w ++ option_list (parse_line line)) w).
Proof.
  unfold load_line, parse_line.
  destruct (Py.split "|" (Py.strip line)) as [|a [|b [|c [|d [|e l]]]]];
    simpl; rewrite ?app_nil_r, ?with_tasks_id; reflexivity.
Qed.

Lemma for_each_load_line lines w :
  for_each lines load_line w =
  (Ret tt, with_tasks (tasks w ++ omap parse_line lines) w).
Proof.
  revert w. induction lines as [|line lines IH]; intros w; simpl.
  - by rewrite app_nil_r, with_tasks_id.
  - erewrite bind_eq by apply load_line_eq. rewrite IH. simpl.
    destruct (parse_line line); simpl; rewrite <- ?app_assoc, ?app_nil_r; done.
Qed.

Lemma file_records_nil : file_records EmptyString = [].
Proof. reflexivity. Qed.

(** What [load_tasks] does: the tasks of the file, none if there is no
    file, are put behind the tasks already in the list. *)
Lemma load_tasks_eq filename w :
  load_tasks filename w =
  (Ret tt, with_tasks
     (tasks w ++ file_records (default EmptyString (files w !! resolve w filename))) w).
Proof.
  unfold load_tasks, bind, path_exists, read_lines.
  destruct (files w !! resolve w filename) as [content|] eqn:E; simpl.
  - by rewrite for_each_load_line, E.
  - by rewrite file_records_nil, app_nil_r, with_tasks_id.
Qed.

Lemma save_tasks_eq filename w :
  save_tasks filename w =
  (Ret tt, with_files (<[resolve w filename := render (tasks w)]> (files w)) w).
Proof. reflexivity. Qed.

Lemma format_task_record t : format_task t = record t +:+ Py.nl.
Proof.
  unfold format_task, record, Py.join.
  repeat (rewrite append_assoc || rewrite append_cons || rewrite append_nil_l).
  reflexivity.
Qed.

Lemma render_from acc ts :
  foldl (fun a t => a +:+ format_task t) acc ts = acc +:+ render ts.
Proof.
  unfold render. revert acc. induction ts as [|t ts IH]; intros acc; simpl.
  - by rewrite append_nil_r.
  - rewrite IH, (IH (EmptyString +:+ format_task t)).
    by rewrite append_nil_l, append_assoc.
Qed.

Lemma render_cons t ts : render (t :: ts) = format_task t +:+ render ts.
Proof. unfold render at 1. simpl. by rewrite render_from. Qed.

Lemma plain_elim s :
  plain s = true ->
  Py.contains "|" s = false /\ Py.contains Py.LF s = false /\
  Py.contains Py.CR s = false.
Proof.
  unfold plain. rewrite !andb_true_iff, !negb_true_iff. tauto.
Qed.

(** Stripping a record strips its first field on the left and its last
    field on the right. *)
Lemma strip_record t :
  Py.strip (record t) =
  record (mkTask (Py.lstrip (task t)) (status t) (created_at t)
            (Py.rstrip (status_updated_at t))).
Proof.
  unfold record, Py.join, Py.strip. cbn [task status created_at status_updated_at].
  rewrite lstrip_app_nonspace by done.
  by rewrite !rstrip_app_nonspace.
Qed.

(** Records of pipe-free fields determine the task. *)
Lemma record_inj t1 t2 :
  Forall (fun x => Py.contains "|" x = false)
    [task t1; status t1; created_at t1; status_updated_at t1] ->
  Forall (fun x => Py.contains "|" x = false)
    [task t2; status t2; created_at t2; status_updated_at t2] ->
  record t1 = record t2 -> t1 = t2.
Proof.
  intros H1 H2 H. apply (f_equal (Py.split "|")) in H. unfold record in H.
  rewrite !split_join in H by done.
  destruct t1, t2. by simplify_eq/=.
Qed.

Lemma storable_elim t :
  storable t = true ->
  plain (task t) = true /\ plain (status t) = true /\
  plain (created_at t) = true /\ plain (status_updated_at t) = true /\
  Py.strip (record t) = record t.
Proof.
  unfold storable. rewrite !andb_true_iff, !String.eqb_eq.
  intros [[[[[? ?] ?] ?] Hl] Hr]. repeat (split; [done|]).
  rewrite strip_record, Hl, Hr. by destruct t.
Qed.

Lemma storable_intro t :
  plain (task t) = true -> plain (status t) = true ->
  plain (created_at t) = true -> plain (status_updated_at t) = true ->
  Py.strip (record t) = record t -> storable t = true.
Proof.
  intros H1 H2 H3 H4 Hs. unfold storable.
  rewrite H1, H2, H3, H4. cbn [andb]. rewrite strip_record in Hs.
  apply plain_elim in H1 as (P1 & _), H2 as (P2 & _), H3 as (P3 & _),
    H4 as (P4 & _).
  apply record_inj in Hs.
  - rewrite <- Hs at 2 4. cbn [task status_updated_at].
    by rewrite !String.eqb_refl.
  - cbn [task status created_at status_updated_at].
    constructor; [by apply contains_lstrip|].
    do 2 (constructor; [done|]).
    constructor; [by apply contains_rstrip|constructor].
  - by repeat constructor.
Qed.

Lemma record_contains c t :
  Py.contains c (record t) =
  Py.contains c (task t) || Py.contains c (status t) ||
  Py.contains c (created_at t) || Py.contains c (status_updated_at t) ||
  Ascii.eqb "|" c.
Proof.
  unfold record, Py.join.
  repeat (rewrite contains_app; cbn [Py.contains]).
  destruct (Py.contains c (task t)), (Py.contains c (status t)),
    (Py.contains c (created_at t)), (Py.contains c (status_updated_at t)),
    (Ascii.eqb "|" c); reflexivity.
Qed.

Lemma parse_record t :
  storable t = true -> parse_line (record t +:+ Py.nl) = Some t.
Proof.
  intros (H1 & H2 & H3 & H4 & Hs)%storable_elim.
  unfold parse_line. rewrite strip_app_nl, Hs. unfold record.
  rewrite split_join; [by destruct t|done|].
  repeat constructor; by apply plain_elim.
Qed.

Lemma storable_no_break t :
  storable t = true ->
  Py.contains Py.LF (record t) = false /\ Py.contains Py.CR (record t) = false.
Proof.
  intros (H1 & H2 & H3 & H4 & _)%storable_elim.
  apply plain_elim in H1 as (_ & ? & ?), H2 as (_ & ? & ?),
    H3 as (_ & ? & ?), H4 as (_ & ? & ?).
  rewrite !record_contains. split; repeat (apply orb_false_intro; [|done]); done.
Qed.

Lemma render_no_cr ts :
  Forall (fun t => storable t = true) ts -> Py.contains Py.CR (render ts) = false.
Proof.
  induction 1 as [|t ts Ht Hts IH]; [done|].
  rewrite render_cons, format_task_record, !contains_app, IH.
  by destruct (storable_no_break t Ht) as [_ ->].
Qed.

(** The file written for a list of storable tasks reads back as that
    list. *)
Lemma file_records_render ts :
  Forall (fun t => storable t = true) ts -> file_records (render ts) = ts.
Proof.
  intros Hts. unfold file_records, file_lines.
  rewrite universal_newlines_id by by apply render_no_cr.
  induction Hts as [|t ts Ht Hts IH]; [done|].
  rewrite render_cons, format_task_record, append_assoc.
  rewrite readlines_line by by apply storable_no_break.
  simpl. rewrite parse_record by done. f_equal. exact IH.
Qed.

Lemma readlines_sub c s :
  Py.contains c s = false ->
  Forall (fun x => Py.contains c x = false) (Py.readlines s).
Proof.
  induction s as [|a s IH]; simpl; [by constructor|].
  intros [Ha Hs]%orb_false_elim. specialize (IH Hs).
  destruct (Ascii.eqb a Py.LF) eqn:E.
  - constructor; [|done]. apply Ascii.eqb_eq in E. subst a.
    unfold Py.nl. cbn [Py.contains]. by rewrite Ha.
  - destruct (Py.readlines s) as [|h t].
    + constructor; [|done]. simpl. by rewrite Ha.
    + apply Forall_cons in IH as [Hh Ht]. constructor; [|done].
      simpl. by rewrite Ha, Hh.
Qed.

(** A line of a file, once stripped, holds no line break. *)
Lemma file_lines_plain content :
  Forall (fun x => Py.contains Py.LF (Py.strip x) = false /\
                   Py.contains Py.CR (Py.strip x) = false)
         (file_lines content).
Proof.
  unfold file_lines.
  pose proof (readlines_lines (Py.universal_newlines content)) as H1.
  pose proof (readlines_sub Py.CR _ (universal_newlines_no_cr content)) as H2.
  revert H2. induction H1 as [|x l (y & Hy & Hx) _ IH]; intros H2; [done|].
  apply Forall_cons in H2 as [Hc H2]. constructor; [|by apply IH].
  split; [|by apply contains_strip].
  destruct Hx as [->|[-> _]]; rewrite ?strip_app_nl; by apply contains_strip.
Qed.

(** Whatever a line is parsed to is storable. *)
Lemma parse_line_storable x t :
  Py.contains Py.LF (Py.strip x) = false ->
  Py.contains Py.CR (Py.strip x) = false ->
  parse_line x = Some t -> storable t = true.
Proof.
  intros Hlf Hcr. unfold parse_line.
  pose proof (split_fields "|" (Py.strip x)) as Hp.
  pose proof (split_fields_sub Py.LF "|" _ Hlf) as Hl.
  pose proof (split_fields_sub Py.CR "|" _ Hcr) as Hc.
  pose proof (join_split "|" (Py.strip x)) as Hj.
  destruct (Py.split "|" (Py.strip x)) as [|a [|b [|c [|d [|e l]]]]]; try done.
  intros [= <-].
  repeat match goal with H : Forall _ (_ :: _) |- _ => apply Forall_cons in H as [? H] end.
  apply storable_intro; cbn [task status created_at status_updated_at];
    try (unfold plain;
         repeat match goal with H : Py.contains _ _ = false |- _ => rewrite H; clear H end;
         reflexivity).
  unfold record. cbn [task status created_at status_updated_at].
  by rewrite Hj, strip_idem.
Qed.

Lemma file_records_storable content :
  Forall (fun t => storable t = true) (file_records content).
Proof.
  unfold file_records. pose proof (file_lines_plain content) as H.
  induction H as [|x l [Hlf Hcr] _ IH]; [done|].
  simpl. destruct (parse_line x) as [t|] eqn:E; [|done].
  constructor; [by eapply parse_line_storable|done].
Qed.

(** ** Claims on persistence *)

(** C1 as stated fails: a title without a pipe can still start with a
    blank, which [strip] removes on loading, or hold a carriage return,
    which reading turns into a line break.  Saving such a task and
    loading the file into an empty list gives another list. *)
Lemma C1_round_trip_counterexample :
  let reload w :=
    tasks (snd (load_tasks default_filename
                  (with_tasks [] (snd (save_tasks default_filename w))))) in
  (Py.contains "|" (task blank_title) = false /\
   reload (session [blank_title] [] ∅) <> [blank_title]) /\
  (Py.contains "|" (task cr_title) = false /\
   reload (session [cr_title] [] ∅) <> [cr_title]).
Proof. vm_compute. repeat split; discriminate. Qed.

(** C1, amended: for every list of tasks in which no field holds a pipe,
    a line feed or a carriage return, no title starts with white space
    and no [status_updated_at] ends with white space, saving the list and
    loading the file into an empty list gives back the same tasks in the
    same order, field by field; nothing else of the world differs from
    the world after saving. *)
Theorem C1_round_trip filename w :
  Forall (fun t => storable t = true) (tasks w) ->
  let saved := snd (save_tasks filename w) in
  load_tasks filename (with_tasks [] saved) = (Ret tt, saved) /\
  tasks (snd (load_tasks filename (with_tasks [] saved))) = tasks w.
Proof.
  intros Hts saved.
  assert (H : load_tasks filename (with_tasks [] saved) = (Ret tt, saved)).
  { subst saved. rewrite load_tasks_eq, save_tasks_eq. f_equal.
    cbn [snd]. unfold resolve. cbn [files cwd with_tasks with_files tasks].
    rewrite lookup_insert_eq. cbn [default app]. unfold id.
    rewrite file_records_render by done. by destruct w. }
  split; [exact H|]. by rewrite H.
Qed.

Lemma C1_round_trip_witness :
  let w := session [milk; bread] [] ∅ in
  Forall (fun t => storable t = true) (tasks w) /\
  tasks (snd (load_tasks default_filename
                (with_tasks [] (snd (save_tasks default_filename w)))))
  = [milk; bread].
Proof.
  intros w.
  assert (H : Forall (fun t => storable t = true) (tasks w)).
  { repeat constructor. }
  split; [exact H|].
  exact (proj2 (C1_round_trip default_filename w H)).
Defined.

(** The condition of C1 cannot be weakened: a list that is read back
    unchanged holds storable tasks only. *)
Lemma round_trip_only_storable ts :
  file_records (render ts) = ts -> Forall (fun t => storable t = true) ts.
Proof. intros <-. apply file_records_storable. Qed.

Lemma parse_line_fields line :
  is_Some (parse_line line) <-> length (Py.split "|" line) = 4.
Proof.
  rewrite <- split_strip_length. unfold parse_line.
  destruct (Py.split "|" (Py.strip line)) as [|a [|b [|c [|d [|e l]]]]];
    simpl; split; intros H; try done; try (by destruct H); eauto.
Qed.

(** C7: [load_tasks] raises nothing; it keeps, in order, the lines that
    split into exactly four fields on the pipe and skips every other
    line; a file with one well-formed line and one line of two fields
    loads exactly one task. *)
Theorem C7_lenient_parse filename w :
  let lines := file_lines (default EmptyString (files w !! resolve w filename)) in
  load_tasks filename w
    = (Ret tt, with_tasks (tasks w ++ omap parse_line lines) w) /\
  (forall line, parse_line line = None <-> length (Py.split "|" line) <> 4) /\
  length (omap parse_line lines)
    = length (filter (fun l => length (Py.split "|" l) = 4) lines) /\
  load_tasks default_filename
    (session [] [] {[ "/home/u/tasks.txt" := two_line_file ]})
    = (Ret tt, session [milk] [] {[ "/home/u/tasks.txt" := two_line_file ]}).
Proof.
  split; [apply load_tasks_eq|]. split; [|split; [|by vm_compute]].
  - intros line. destruct (parse_line_fields line) as [H1 H2]. split.
    + intros Hn Hlen. destruct (H2 Hlen) as [t Ht]. congruence.
    + intros Hn. destruct (parse_line line) eqn:E; [|done].
      exfalso. apply Hn, H1. eauto.
  - induction (file_lines _) as [|l ls IH]; [done|].
    simpl. rewrite filter_cons.
    pose proof (parse_line_fields l) as Hl.
    destruct (parse_line l) as [t|].
    + rewrite decide_True by (apply Hl; eauto). simpl. by rewrite <- IH.
    + rewrite decide_False; [done|]. intros H. apply Hl in H. by destruct H.
Qed.

(** C10: [load_tasks] puts the tasks of the file behind the tasks already
    in the list, which stay as a prefix; loading the same file twice
    gives every task of the file twice. *)
Theorem C10_load_is_additive filename w :
  let loaded := file_records (default EmptyString (files w !! resolve w filename)) in
  tasks (snd (load_tasks filename w)) = tasks w ++ loaded /\
  tasks (snd (load_tasks filename (snd (load_tasks filename w))))
    = tasks w ++ loaded ++ loaded /\
  tasks (snd (load_tasks default_filename (snd (load_tasks default_filename
      (session [bread] [] {[ "/home/u/tasks.txt" := two_line_file ]})))))
    = [bread; milk; milk].
Proof.
  split; [by rewrite load_tasks_eq|]. split; [|by vm_compute].
  rewrite !load_tasks_eq. cbn [snd]. destruct w; cbn.
  by rewrite app_assoc.
Qed.

(** ** Output *)

Lemma for_each_print {A} (f : A -> string) (l : list A) w :
  for_each l (fun x => print (f x)) w =
  (Ret tt, with_stdout (stdout w ++ map (fun x => f x +:+ Py.nl) l) w).
Proof.
  revert w. induction l as [|x l IH]; intros w.
  - simpl. rewrite app_nil_r. by destruct w.
  - cbn [for_each]. unfold bind at 1. unfold print at 1. rewrite IH.
    destruct w. cbn. by rewrite <- app_assoc.
Qed.

Lemma view_tasks_eq w :
  view_tasks w = (Ret tt, with_stdout (stdout w ++ view_output (tasks w)) w).
Proof.
  unfold view_tasks, view_output, bind, get_tasks.
  destruct (tasks w) as [|t ts] eqn:E; [done|].
  unfold print at 1. rewrite for_each_print.
  destruct w. cbn. by rewrite <- app_assoc.
Qed.

Lemma display_menu_eq w :
  display_menu w =
  (Ret tt, with_stdout (stdout w ++ map (fun s => s +:+ Py.nl) menu_lines) w).
Proof. unfold display_menu. apply (for_each_print id). Qed.

Lemma status_menu_eq {B} (k : M B) w :
  (print (Py.nl +:+ "Available statuses:") ;;
   for_each (enumerate 1 STATUSES)
     (fun it => print (pretty (fst it) +:+ ". " +:+ snd it)) ;;
   k)%py w =
  k (with_stdout (stdout w ++ status_menu) w).
Proof.
  unfold bind at 1. unfold print at 1. unfold bind at 1.
  rewrite (for_each_print (fun it => pretty (fst it) +:+ ". " +:+ snd it)).
  f_equal. unfold status_menu. destruct w. cbn [with_stdout stdout tasks stdin
    files cwd script_path clock ticks]. by rewrite <- app_assoc.
Qed.

(** ** Subscripts *)

Lemma in_range_position pos n :
  in_range (pos - 1) n = true <-> valid_position pos n.
Proof.
  unfold in_range, valid_position.
  rewrite andb_true_iff, Z.leb_le, Z.ltb_lt. lia.
Qed.

Lemma in_range_index i n :
  in_range i n = true -> py_index n i = Some (Z.to_nat i) /\ Z.to_nat i < n.
Proof.
  unfold in_range, py_index. rewrite andb_true_iff, Z.leb_le, Z.ltb_lt.
  intros [H1 H2]. rewrite (proj2 (Z.leb_le _ _) H1), (proj2 (Z.ltb_lt _ _) H2).
  split; [done|lia].
Qed.

(** ** Steps of the monad *)

Section Steps.

Context {B : Type}.
Implicit Types (w : world) (s prompt line : string).

Lemma bind_get_tasks (k : list Task -> M B) w :
  bind get_tasks k w = k (tasks w) w.
Proof. reflexivity. Qed.

Lemma bind_put_tasks ts (k : unit -> M B) w :
  bind (put_tasks ts) k w = k tt (with_tasks ts w).
Proof. reflexivity. Qed.

Lemma bind_print s (k : unit -> M B) w :
  bind (print s) k w = k tt (printed s w).
Proof. reflexivity. Qed.

Lemma bind_view_tasks (k : unit -> M B) w :
  bind view_tasks k w = k tt (viewed w).
Proof. unfold bind. by rewrite view_tasks_eq. Qed.

Lemma bind_input_cons prompt (k : string -> M B) w line rest :
  stdin w = line :: rest -> bind (input prompt) k w = k line (answered prompt w).
Proof.
  intros H. unfold bind, input, answered, asked. rewrite H.
  destruct w; cbn in *. by rewrite H.
Qed.

Lemma bind_input_nil prompt (k : string -> M B) w :
  stdin w = [] -> bind (input prompt) k w = (Raise EOFError, asked prompt w).
Proof. intros H. unfold bind, input. by rewrite H. Qed.

Lemma bind_py_int_some s z (k : Z -> M B) w :
  Py.int s = Some z -> bind (py_int s) k w = k z w.
Proof. intros H. unfold bind, py_int. by rewrite H. Qed.

Lemma bind_py_int_none s (k : Z -> M B) w :
  Py.int s = None -> bind (py_int s) k w = (Raise ValueError, w).
Proof. intros H. unfold bind, py_int. by rewrite H. Qed.

Lemma bind_now_strftime (k : string -> M B) w :
  bind now_strftime k w = k (clock w (ticks w)) (with_ticks (S (ticks w)) w).
Proof. reflexivity. Qed.

Lemma bind_getitem {A} (l : list A) i x (k : A -> M B) w :
  in_range i (length l) = true -> l !! Z.to_nat i = Some x ->
  bind (getitem l i) k w = k x w.
Proof.
  intros [H _]%in_range_index Hx. unfold bind, getitem. by rewrite H, Hx.
Qed.

Lemma bind_setitem_field i upd t (k : unit -> M B) w :
  in_range i (length (tasks w)) = true -> tasks w !! Z.to_nat i = Some t ->
  bind (setitem_field i upd) k w
  = k tt (with_tasks (<[Z.to_nat i := upd t]> (tasks w)) w).
Proof.
  intros [H _]%in_range_index Ht.
  unfold setitem_field. unfold bind, get_tasks. by rewrite H, Ht.
Qed.

Lemma bind_pop_task i t (k : Task -> M B) w :
  in_range i (length (tasks w)) = true -> tasks w !! Z.to_nat i = Some t ->
  bind (pop_task i) k w = k t (with_tasks (delete (Z.to_nat i) (tasks w)) w).
Proof.
  intros [H _]%in_range_index Ht.
  unfold pop_task. unfold bind, get_tasks. by rewrite H, Ht.
Qed.

End Steps.

(** The fields of the worlds an operation goes through. *)
Ltac world_simpl :=
  cbn [tasks stdin stdout files cwd script_path clock ticks open_error
       with_tasks with_stdin with_stdout with_files with_ticks
       asked answered printed viewed consumed tail] in *.

(** ** The operations in closed form *)

Lemma remove_task_eq w :
  remove_task w =
  match tasks w with
  | [] => (Ret tt, viewed w)
  | _ :: _ =>
      let prompt := "Enter the task number to remove: " in
      match stdin w with
      | [] => (Raise EOFError, asked prompt (viewed w))
      | line :: _ =>
          let w1 := answered prompt (viewed w) in
          match Py.int line with
          | None => (Ret tt, printed "Please enter a valid number." w1)
          | Some pos =>
              if in_range (pos - 1) (length (tasks w)) then
                match tasks w !! Z.to_nat (pos - 1) with
                | Some removed =>
                    (Ret tt,
                     printed ("Task '" +:+ task removed +:+ "' removed successfully!")
                       (with_tasks (delete (Z.to_nat (pos - 1)) (tasks w)) w1))
                | None => (Raise IndexError, w1)
                end
              else (Ret tt, w1)
          end
      end
  end.
Proof.
  unfold remove_task. unfold bind at 1. rewrite view_tasks_eq.
  destruct w as [ts inp out fs cw sp clk tk oe].
  destruct ts as [|t ts]; [done|].
  destruct inp as [|line inp]; [done|].
  cbn -[in_range Z.sub]. unfold try_except_ValueError, bind, input, py_int.
  cbn -[in_range Z.sub Py.int].
  destruct (Py.int line) as [pos|]; [|done].
  cbn -[in_range Z.sub].
  destruct (in_range (pos - 1) (S (length ts))) eqn:E; [|done].
  apply in_range_index in E as [E1 E2].
  unfold pop_task, bind, get_tasks. cbn -[Z.sub py_index lookup delete].
  rewrite E1.
  destruct ((t :: ts) !! Z.to_nat (pos - 1)); done.
Qed.

Lemma add_task_eq w :
  add_task w =
  let prompt := "Enter a new task: " in
  match stdin w with
  | [] => (Raise EOFError, asked prompt w)
  | line :: _ =>
      let w1 := answered prompt w in
      match Py.strip line with
      | EmptyString => (Ret tt, w1)
      | String _ _ as task_name =>
          let now := clock w (ticks w) in
          (Ret tt,
           printed ("Task '" +:+ task_name +:+ "' added successfully with status 'Open'.")
             (with_tasks (tasks w ++ [mkTask task_name "Open" now now])
                (with_ticks (S (ticks w)) w1)))
      end
  end.
Proof.
  unfold add_task, bind, input.
  destruct w as [ts inp out fs cw sp clk tk oe].
  destruct inp as [|line inp]; [done|].
  cbn -[Py.strip]. by destruct (Py.strip line).
Qed.

Lemma update_task_status_eq w :
  update_task_status w =
  match tasks w with
  | [] => (Ret tt, printed "No tasks available to update status." (viewed w))
  | _ :: _ =>
      let prompt := "Enter the task number to update status: " in
      let prompt2 := "Choose a status number: " in
      let sorry := "Please enter a valid number." in
      match stdin w with
      | [] => (Raise EOFError, asked prompt (viewed w))
      | line :: rest =>
          let w1 := answered prompt (viewed w) in
          match Py.int line with
          | None => (Ret tt, printed sorry w1)
          | Some pos =>
              if in_range (pos - 1) (length (tasks w)) then
                let w2 := with_stdout (stdout w1 ++ status_menu) w1 in
                match rest with
                | [] => (Raise EOFError, asked prompt2 w2)
                | line2 :: _ =>
                    let w3 := answered prompt2 w2 in
                    match Py.int line2 with
                    | None => (Ret tt, printed sorry w3)
                    | Some k =>
                        if in_range (k - 1) (length STATUSES) then
                          match STATUSES !! Z.to_nat (k - 1),
                                tasks w !! Z.to_nat (pos - 1) with
                          | Some st, Some t =>
                              (Ret tt,
                               printed ("Task '" +:+ task t +:+ "' status updated.")
                                 (with_tasks
                                    (<[Z.to_nat (pos - 1) :=
                                         mkTask (task t) st (created_at t)
                                           (clock w (ticks w))]> (tasks w))
                                    (with_ticks (S (ticks w)) w3)))
                          | _, _ => (Raise IndexError, w3)
                          end
                        else (Ret tt, w3)
                    end
                end
              else (Ret tt, w1)
          end
      end
  end.
Proof.
  unfold update_task_status. rewrite bind_view_tasks, bind_get_tasks.
  change (tasks (viewed w)) with (tasks w).
  destruct (tasks w) as [|t0 ts0] eqn:Hts; [done|]. rewrite <- Hts.
  assert (Hv : stdin (viewed w) = stdin w) by done.
  unfold try_except_ValueError.
  destruct (stdin w) as [|line rest] eqn:Hin;
    [by rewrite bind_input_nil|].
  rewrite (bind_input_cons _ _ _ line rest) by done.
  destruct (Py.int line) as [pos|] eqn:Hpos;
    [|by rewrite bind_py_int_none].
  rewrite (bind_py_int_some _ pos), bind_get_tasks by done.
  change (tasks (answered _ (viewed w))) with (tasks w).
  destruct (in_range (pos - 1) (length (tasks w))) eqn:E; [|done].
  rewrite status_menu_eq.
  set (w2 := with_stdout _ (answered _ (viewed w))).
  assert (Hw2 : stdin w2 = rest).
  { subst w2. unfold answered. cbn [stdin with_stdout with_stdin asked tail]. by rewrite Hv. }
  destruct rest as [|line2 rest]; [by rewrite bind_input_nil|].
  rewrite (bind_input_cons _ _ _ line2 rest) by done.
  destruct (Py.int line2) as [k|] eqn:Hk; [|by rewrite bind_py_int_none].
  rewrite (bind_py_int_some _ k) by done.
  destruct (in_range (k - 1) (length STATUSES)) eqn:F; [|done].
  pose proof (in_range_index _ _ E) as [_ E2].
  pose proof (in_range_index _ _ F) as [_ F2].
  destruct (lookup_lt_is_Some_2 _ _ E2) as [t Ht].
  destruct (lookup_lt_is_Some_2 _ _ F2) as [st Hst].
  rewrite Ht, Hst.
  rewrite (bind_getitem _ _ st) by done.
  rewrite (bind_setitem_field _ _ t) by done.
  rewrite bind_now_strftime.
  rewrite (bind_setitem_field _ _ (set_status st t));
    [|world_simpl; by rewrite length_insert
     |world_simpl; by rewrite list_lookup_insert_eq].
  rewrite bind_get_tasks.
  rewrite (bind_getitem _ _ (set_status_updated_at (clock w (ticks w)) (set_status st t)));
    [|world_simpl; by rewrite !length_insert
     |world_simpl; rewrite list_lookup_insert_eq; [done|by rewrite length_insert]].
  unfold print, printed. world_simpl. rewrite list_insert_insert_eq.
  reflexivity.
Qed.

(** ** Claims on the operations *)

Lemma valid_position_index pos n :
  valid_position pos n -> Z.to_nat (pos - 1) < n.
Proof. unfold valid_position. lia. Qed.

Lemma last_snoc {A} (l : list A) x : last (l ++ [x]) = Some x.
Proof. induction l as [|y [|z l] IH]; done. Qed.

(** *** What trimming is *)

Lemma all_space_app s r :
  all_space (s +:+ r) = all_space s && all_space r.
Proof.
  induction s as [|c s IH]; [done|].
  rewrite append_cons. cbn [all_space]. by rewrite IH, andb_assoc.
Qed.

Lemma lstrip_decompose s :
  exists pre, s = pre +:+ Py.lstrip s /\ all_space pre = true.
Proof.
  induction s as [|c s (pre & Hs & Hpre)]; [by exists EmptyString|].
  cbn [Py.lstrip]. destruct (Py.isspace c) eqn:Hc.
  - exists (String c pre). rewrite append_cons, <- Hs. cbn [all_space].
    by rewrite Hc, Hpre.
  - by exists EmptyString.
Qed.

Lemma rstrip_decompose s :
  exists post, s = Py.rstrip s +:+ post /\ all_space post = true.
Proof.
  induction s as [|c s (post & Hs & Hpost)]; [by exists EmptyString|].
  cbn [Py.rstrip]. destruct (Py.rstrip s) as [|b r] eqn:E.
  - rewrite append_nil_l in Hs. subst post.
    destruct (Py.isspace c) eqn:Hc.
    + exists (String c s). rewrite append_nil_l. cbn [all_space].
      by rewrite Hc, Hpost.
    + exists s. by rewrite append_cons, append_nil_l.
  - exists post. by rewrite append_cons, <- Hs.
Qed.

Lemma last_space_rstrip s : last_space (Py.rstrip s) = false.
Proof.
  induction s as [|c s IH]; [done|].
  cbn [Py.rstrip]. destruct (Py.rstrip s) as [|b r] eqn:E.
  - destruct (Py.isspace c) eqn:Hc; [done|]. cbn [last_space]. exact Hc.
  - exact IH.
Qed.

(** The trimmed line is the line without a white prefix and a white
    suffix, and it neither starts nor ends with white space: this fixes
    what [strip] returns. *)
Lemma strip_spec s :
  (exists pre post,
     s = pre +:+ Py.strip s +:+ post /\
     all_space pre = true /\ all_space post = true) /\
  head_space (Py.strip s) = false /\ last_space (Py.strip s) = false.
Proof.
  split; [|split].
  - destruct (lstrip_decompose s) as (pre & Hs & Hpre).
    destruct (rstrip_decompose (Py.lstrip s)) as (post & Hl & Hpost).
    exists pre, post. unfold Py.strip. by rewrite <- Hl, <- Hs.
  - unfold Py.strip. pose proof (lstrip_head s) as H.
    destruct (Py.lstrip s) as [|a x]; [done|].
    by destruct (rstrip_head a x H) as [r ->].
  - apply last_space_rstrip.
Qed.

Lemma strip_nil_iff s : Py.strip s = EmptyString <-> all_space s = true.
Proof.
  split.
  - intros H. destruct (strip_spec s) as [(pre & post & Hs & Hpre & Hpost) _].
    rewrite H, append_nil_l in Hs. rewrite Hs, all_space_app.
    by rewrite Hpre, Hpost.
  - intros H. unfold Py.strip.
    assert (Hl : Py.lstrip s = EmptyString).
    { induction s as [|c s IH]; [done|]. cbn [all_space] in H.
      apply andb_true_iff in H as [Hc Hs]. cbn [Py.lstrip]. rewrite Hc. auto. }
    by rewrite Hl.
Qed.

(** C5 as stated fails in its last part: [add_task] has no [return], so
    what it returns is the same whatever task it has created.  Two runs
    that add different tasks return the same value, from which no title
    can be read. *)
Lemma C5_add_returns_nothing_counterexample :
  let w1 := session [] ["Buy milk"] ∅ in
  let w2 := session [] ["Bake bread"] ∅ in
  map task (tasks (snd (add_task w1))) = ["Buy milk"] /\
  map task (tasks (snd (add_task w2))) = ["Bake bread"] /\
  fst (add_task w1) = Ret tt /\ fst (add_task w2) = Ret tt /\
  ~ exists f : result unit -> string,
      f (fst (add_task w1)) = "Buy milk" /\ f (fst (add_task w2)) = "Bake bread".
Proof.
  do 4 (split; [by vm_compute|]).
  intros (f & H1 & H2).
  assert (E : fst (add_task (session [] ["Buy milk"] ∅))
              = fst (add_task (session [] ["Bake bread"] ∅))) by by vm_compute.
  rewrite E, H2 in H1. discriminate.
Qed.

(** C5, amended: [add_task] reads the title as the next line of the
    input and returns no value.  A line that is empty or holds white
    space only changes nothing but what was read and written.  Any other
    line appends exactly one task, whose title is the line without its
    leading and trailing white space: the length grows by one, the new
    task has the status Open and the same clock reading in both time
    stamps, and the confirmation printed last names that title and the
    status Open. *)
Theorem C5_add_postcondition w line rest :
  stdin w = line :: rest ->
  let w' := snd (add_task w) in
  fst (add_task w) = Ret tt /\
  (all_space line = true ->
   w' = answered "Enter a new task: " w /\ tasks w' = tasks w) /\
  (all_space line = false ->
   exists t pre post,
     line = pre +:+ task t +:+ post /\
     all_space pre = true /\ all_space post = true /\
     head_space (task t) = false /\ last_space (task t) = false /\
     task t <> EmptyString /\ task t = Py.strip line /\
     tasks w' = tasks w ++ [t] /\
     length (tasks w') = S (length (tasks w)) /\
     status t = "Open" /\
     created_at t = status_updated_at t /\ created_at t = clock w (ticks w) /\
     last (stdout w') =
       Some (("Task '" +:+ task t +:+ "' added successfully with status 'Open'.")
             +:+ Py.nl)).
Proof.
  intros Hin w'. subst w'. rewrite add_task_eq, Hin. cbv zeta.
  destruct (strip_spec line) as ((pre & post & Hl & Hpre & Hpost) & Hh & Hlast).
  pose proof (strip_nil_iff line) as Hnil.
  destruct (Py.strip line) as [|c title'] eqn:E.
  - split; [done|]. split; [done|].
    intros Hs. rewrite (proj1 Hnil eq_refl) in Hs. done.
  - split; [done|]. split.
    + intros Hs. by apply Hnil in Hs.
    + intros _. cbn [fst snd]. world_simpl.
      eexists (mkTask (String c title') "Open" _ _), pre, post.
      cbn [task status created_at status_updated_at].
      do 7 (split; [done|]). split; [reflexivity|].
      rewrite length_app. cbn [length]. split; [lia|].
      do 3 (split; [reflexivity|]). apply last_snoc.
Qed.

(** A blank line adds nothing; a padded title is added without its
    padding. *)
Lemma C5_add_postcondition_witness :
  let blank := session [milk] ["   "; "6"] ∅ in
  let w := session [milk] ["  Bake bread  "; "6"] ∅ in
  (stdin blank = ["   "; "6"] /\ tasks (snd (add_task blank)) = [milk]) /\
  (stdin w = ["  Bake bread  "; "6"] /\
   fst (add_task w) = Ret tt /\ length (tasks (snd (add_task w))) = 2 /\
   map task (tasks (snd (add_task w))) = ["Buy milk"; "Bake bread"]).
Proof.
  intros blank w. split.
  - split; [reflexivity|].
    destruct (C5_add_postcondition blank "   " ["6"] eq_refl) as (_ & H & _).
    destruct (H eq_refl) as [_ Ht]. exact Ht.
  - split; [reflexivity|].
    destruct (C5_add_postcondition w "  Bake bread  " ["6"] eq_refl)
      as (H1 & _ & H3).
    split; [exact H1|].
    destruct (H3 eq_refl)
      as (t & pre & post & _ & _ & _ & _ & _ & _ & Ht & Hts & Hl & _).
    split; [exact Hl|]. rewrite Hts, map_app. cbn [map]. rewrite Ht.
    reflexivity.
Defined.

(** C6 as stated fails in its last part: [remove_task] has no [return],
    so what it returns is the same whatever task it has removed.  Two
    runs that remove different tasks return the same value, from which
    no task can be read. *)
Lemma C6_remove_returns_nothing_counterexample :
  let w1 := session [milk; bread] ["1"] ∅ in
  let w2 := session [milk; bread] ["2"] ∅ in
  tasks (snd (remove_task w1)) = [bread] /\
  tasks (snd (remove_task w2)) = [milk] /\
  fst (remove_task w1) = Ret tt /\ fst (remove_task w2) = Ret tt /\
  ~ exists f : result unit -> Task,
      f (fst (remove_task w1)) = milk /\ f (fst (remove_task w2)) = bread.
Proof.
  do 4 (split; [by vm_compute|]).
  intros (f & H1 & H2).
  assert (E : fst (remove_task (session [milk; bread] ["1"] ∅))
              = fst (remove_task (session [milk; bread] ["2"] ∅))) by by vm_compute.
  rewrite E, H2 in H1. discriminate.
Qed.

(** C6, amended: for a valid position, [remove_task] takes exactly the
    task at that position out of the list: the length drops by one, the
    tasks before it keep their places, the tasks behind it move up by
    one, and the confirmation printed last names the title of the
    removed task; [remove_task] itself returns no value. *)
Theorem C6_remove_postcondition w line rest pos :
  stdin w = line :: rest -> Py.int line = Some pos ->
  valid_position pos (length (tasks w)) ->
  let i := Z.to_nat (pos - 1) in
  let w' := snd (remove_task w) in
  exists removed,
    fst (remove_task w) = Ret tt /\
    tasks w !! i = Some removed /\
    tasks w' = delete i (tasks w) /\
    S (length (tasks w')) = length (tasks w) /\
    (forall j, j < i -> tasks w' !! j = tasks w !! j) /\
    (forall j, i <= j -> tasks w' !! j = tasks w !! S j) /\
    last (stdout w') =
      Some (("Task '" +:+ task removed +:+ "' removed successfully!") +:+ Py.nl).
Proof.
  intros Hin Hpos Hv i w'. subst w'.
  pose proof (valid_position_index _ _ Hv) as Hi. fold i in Hi.
  destruct (lookup_lt_is_Some_2 _ _ Hi) as [removed Hr].
  exists removed. rewrite remove_task_eq, Hin, Hpos. cbv zeta.
  rewrite (proj2 (in_range_position _ _) Hv). fold i. rewrite Hr.
  destruct (tasks w) as [|t ts] eqn:Hts; [simpl in Hi; lia|]. rewrite <- Hts in *.
  cbn [fst snd]. world_simpl.
  split; [done|]. split; [done|]. split; [done|].
  split; [rewrite length_delete by eauto; lia|].
  split; [intros j Hj; by apply list_lookup_delete_lt|].
  split; [intros j Hj; by apply list_lookup_delete_ge|].
  apply last_snoc.
Qed.

Lemma C6_remove_postcondition_witness :
  let w := session [milk; bread] ["1"] ∅ in
  stdin w = ["1"] /\ Py.int "1" = Some 1%Z /\
  valid_position 1 (length (tasks w)) /\
  tasks (snd (remove_task w)) = [bread].
Proof.
  intros w.
  assert (Hv : valid_position 1 (length (tasks w))) by (unfold valid_position; simpl; lia).
  split; [reflexivity|]. split; [reflexivity|]. split; [exact Hv|].
  destruct (C6_remove_postcondition w "1" [] 1%Z eq_refl eq_refl Hv)
    as (removed & _ & _ & Hd & _).
  exact Hd.
Defined.

(** C4: a position outside [1, length] makes [remove_task] and
    [update_task_status] leave the list as it is, without error; so does
    a status number outside [1, 5] after a valid position. *)
Theorem C4_out_of_range_noop w line rest pos :
  stdin w = line :: rest -> Py.int line = Some pos ->
  (~ valid_position pos (length (tasks w)) ->
     fst (remove_task w) = Ret tt /\ tasks (snd (remove_task w)) = tasks w /\
     fst (update_task_status w) = Ret tt /\
     tasks (snd (update_task_status w)) = tasks w) /\
  (valid_position pos (length (tasks w)) ->
   forall line2 rest2 k,
     rest = line2 :: rest2 -> Py.int line2 = Some k ->
     ~ valid_position k (length STATUSES) ->
     fst (update_task_status w) = Ret tt /\
     tasks (snd (update_task_status w)) = tasks w /\
     ticks (snd (update_task_status w)) = ticks w).
Proof.
  intros Hin Hpos. split.
  - intros Hv. rewrite <- in_range_position in Hv. apply not_true_is_false in Hv.
    rewrite remove_task_eq, update_task_status_eq, Hin, Hpos. cbv zeta. rewrite Hv.
    destruct (tasks w) eqn:E; cbn [fst snd]; world_simpl; by rewrite ?E.
  - intros Hv line2 rest2 k -> Hk Hkv.
    rewrite <- in_range_position in Hv, Hkv. apply not_true_is_false in Hkv.
    rewrite update_task_status_eq, Hin, Hpos. cbv zeta. rewrite Hv, Hk, Hkv.
    destruct (tasks w) eqn:E; cbn [fst snd]; world_simpl; by rewrite ?E.
Qed.

(** The scenario of C4: in a list of two tasks, removing position 5 and
    updating position 0 change nothing. *)
Lemma C4_out_of_range_noop_witness :
  let w5 := session [milk; bread] ["5"] ∅ in
  let w0 := session [milk; bread] ["0"; "5"] ∅ in
  (stdin w5 = ["5"] /\ Py.int "5" = Some 5%Z /\
   tasks (snd (remove_task w5)) = [milk; bread]) /\
  (stdin w0 = ["0"; "5"] /\ Py.int "0" = Some 0%Z /\
   tasks (snd (update_task_status w0)) = [milk; bread]).
Proof.
  intros w5 w0. split.
  - split; [reflexivity|]. split; [reflexivity|].
    destruct (C4_out_of_range_noop w5 "5" [] 5%Z eq_refl eq_refl) as [H _].
    destruct H as (_ & H & _); [|exact H].
    unfold valid_position. simpl. lia.
  - split; [reflexivity|]. split; [reflexivity|].
    destruct (C4_out_of_range_noop w0 "0" ["5"] 0%Z eq_refl eq_refl) as [H _].
    destruct H as (_ & _ & _ & H); [|exact H].
    unfold valid_position. simpl. lia.
Defined.

(** C3 as stated fails in its last part: the new [status_updated_at] is
    whatever the clock reads, and nothing compares it with the value it
    replaces.  A task loaded with a time stamp in the year 2999 gets an
    earlier one when its status is changed in 2026. *)
Lemma C3_status_change_counterexample :
  let w := session [future] ["1"; "5"] ∅ in
  let t' := mkTask "Plan" "Done" "2999-01-01 00:00:00" "2026-11-03 10:00:00" in
  fst (update_task_status w) = Ret tt /\
  tasks (snd (update_task_status w)) = [t'] /\
  ~ (status_updated_at future ≤ status_updated_at t')%string.
Proof.
  split; [by vm_compute|]. split; [by vm_compute|].
  vm_compute. intros [].
Qed.

(** C3, amended: for a valid position and a status number in [1, 5],
    [update_task_status] changes only the status and [status_updated_at]
    of the task at that position: its title and [created_at] stay, every
    other task stays, the length stays.  The new [status_updated_at] is
    the clock reading taken at the update; it is not below the previous
    value whenever the previous value is not above that reading. *)
Theorem C3_status_change_frame w line line2 rest pos k :
  stdin w = line :: line2 :: rest ->
  Py.int line = Some pos -> Py.int line2 = Some k ->
  valid_position pos (length (tasks w)) ->
  valid_position k (length STATUSES) ->
  let i := Z.to_nat (pos - 1) in
  let w' := snd (update_task_status w) in
  exists t s t',
    fst (update_task_status w) = Ret tt /\
    tasks w !! i = Some t /\ STATUSES !! Z.to_nat (k - 1) = Some s /\
    tasks w' = <[i := t']> (tasks w) /\
    tasks w' !! i = Some t' /\
    length (tasks w') = length (tasks w) /\
    (forall j, j <> i -> tasks w' !! j = tasks w !! j) /\
    task t' = task t /\ created_at t' = created_at t /\
    status t' = s /\ status_updated_at t' = clock w (ticks w) /\
    ((status_updated_at t ≤ clock w (ticks w))%string ->
     (status_updated_at t ≤ status_updated_at t')%string).
Proof.
  intros Hin Hpos Hk Hv Hkv i w'. subst w'.
  pose proof (valid_position_index _ _ Hv) as Hi. fold i in Hi.
  pose proof (valid_position_index _ _ Hkv) as Hj.
  destruct (lookup_lt_is_Some_2 _ _ Hi) as [t Ht].
  destruct (lookup_lt_is_Some_2 _ _ Hj) as [s Hs].
  exists t, s, (mkTask (task t) s (created_at t) (clock w (ticks w))).
  rewrite update_task_status_eq, Hin, Hpos, Hk. cbv zeta.
  rewrite (proj2 (in_range_position _ _) Hv), (proj2 (in_range_position _ _) Hkv).
  fold i. rewrite Ht, Hs.
  destruct (tasks w) as [|t0 ts] eqn:Hts; [simpl in Hi; lia|]. rewrite <- Hts in *.
  cbn [fst snd task status created_at status_updated_at]. world_simpl.
  split; [done|]. split; [done|]. split; [done|]. split; [done|].
  split; [by apply list_lookup_insert_eq|].
  split; [by rewrite length_insert|].
  split; [intros j Hne; by apply list_lookup_insert_ne|].
  done.
Qed.

Lemma C3_status_change_frame_witness :
  let w := session [milk; bread] ["2"; "5"] ∅ in
  stdin w = ["2"; "5"] /\ Py.int "2" = Some 2%Z /\ Py.int "5" = Some 5%Z /\
  valid_position 2 (length (tasks w)) /\ valid_position 5 (length STATUSES) /\
  tasks (snd (update_task_status w)) !! 0 = Some milk /\
  length (tasks (snd (update_task_status w))) = 2.
Proof.
  intros w.
  assert (Hv : valid_position 2 (length (tasks w))) by (unfold valid_position; simpl; lia).
  assert (Hk : valid_position 5 (length STATUSES)) by (unfold valid_position; simpl; lia).
  do 3 (split; [reflexivity|]). split; [exact Hv|]. split; [exact Hk|].
  destruct (C3_status_change_frame w "2" "5" [] 2%Z 5%Z eq_refl eq_refl eq_refl Hv Hk)
    as (t & s & t' & _ & _ & _ & _ & _ & Hl & Hf & _).
  split; [|exact Hl].
  rewrite (Hf 0); [reflexivity|]. simpl. lia.
Defined.

(** Use what a case analysis has found out about the list. *)
Ltac known_tasks :=
  repeat match goal with
         | E : tasks ?w = _ |- context [tasks ?w] => rewrite E
         end.

Lemma status_ok_insert ts i t :
  Forall (fun t => status_ok t = true) ts -> status_ok t = true ->
  Forall (fun t => status_ok t = true) (<[i := t]> ts).
Proof. intros H Ht. by apply Forall_insert. Qed.

Lemma status_ok_delete ts i :
  Forall (fun t => status_ok t = true) ts ->
  Forall (fun t => status_ok t = true) (delete i ts).
Proof. intros H. by apply Forall_delete. Qed.

(** C2 as stated fails for [load_tasks]: the status of a line is taken as
    it is, whatever it says. *)
Lemma C2_status_invariant_counterexample :
  let w := session [] [] {[ "/home/u/tasks.txt" := bogus_file ]} in
  Forall (fun t => status_ok t = true) (tasks w) /\
  tasks (snd (load_tasks default_filename w)) = [mkTask "a" "Bogus" "x" "y"] /\
  ~ Forall (fun t => status_ok t = true) (tasks (snd (load_tasks default_filename w))).
Proof.
  split; [constructor|]. split; [by vm_compute|].
  intros H. vm_compute in H. apply Forall_cons in H as [H _]. discriminate.
Qed.

(** C2, amended: when every task of the list has one of the five
    labels, so has every task after [add_task], after
    [update_task_status] and after [remove_task]; after [load_tasks] this
    holds exactly when every four-field line of the file carries one of
    the five labels as its second field, since loading checks no label. *)
Theorem C2_status_invariant w :
  Forall (fun t => status_ok t = true) (tasks w) ->
  Forall (fun t => status_ok t = true) (tasks (snd (add_task w))) /\
  Forall (fun t => status_ok t = true) (tasks (snd (update_task_status w))) /\
  Forall (fun t => status_ok t = true) (tasks (snd (remove_task w))) /\
  forall filename,
    Forall (fun t => status_ok t = true) (tasks (snd (load_tasks filename w))) <->
    Forall (fun t => status_ok t = true)
      (file_records (default EmptyString (files w !! resolve w filename))).
Proof.
  intros H. repeat split.
  - rewrite add_task_eq. cbv zeta.
    repeat case_match; cbn [fst snd]; world_simpl; try done.
    apply Forall_app; split; [done|]. by repeat constructor.
  - rewrite update_task_status_eq. cbv zeta.
    repeat case_match; cbn [fst snd]; world_simpl; known_tasks; try done.
    apply status_ok_insert; [done|].
    unfold status_ok. cbn [status]. apply bool_decide_eq_true.
    eapply list_elem_of_lookup_2; eassumption.
  - rewrite remove_task_eq. cbv zeta.
    repeat case_match; cbn [fst snd]; world_simpl; known_tasks; try done.
    by apply status_ok_delete.
  - rewrite load_tasks_eq. cbn [snd]. world_simpl.
    intros [_ ?]%Forall_app. done.
  - rewrite load_tasks_eq. cbn [snd]. world_simpl.
    intros ?. by apply Forall_app.
Qed.

Lemma C2_status_invariant_witness :
  let w := session [milk; bread] ["2"; "3"] ∅ in
  Forall (fun t => status_ok t = true) (tasks w) /\
  Forall (fun t => status_ok t = true) (tasks (snd (update_task_status w))).
Proof.
  intros w.
  assert (H : Forall (fun t => status_ok t = true) (tasks w)).
  { repeat constructor. }
  split; [exact H|].
  destruct (C2_status_invariant w H) as (_ & Hu & _). exact Hu.
Defined.

(** ** The loop *)

Lemma op_frame_view_tasks w :
  op_frame w (fst (view_tasks w)) (snd (view_tasks w)).
Proof. rewrite view_tasks_eq. repeat split; eauto. by exists 0. Qed.

Ltac solve_op_frame :=
  cbv zeta; repeat case_match; cbn [fst snd]; unfold op_frame; world_simpl;
  repeat match goal with E : stdin ?w = _ |- _ => rewrite E; clear E end;
  (split; [done|]); (split; [done|]); (split; [done|]);
  (split; [first [by exists 0 | by exists 1 | by exists 2]|]);
  first [by left | by right].

Lemma op_frame_add_task w :
  op_frame w (fst (add_task w)) (snd (add_task w)).
Proof. rewrite add_task_eq. solve_op_frame. Qed.

Lemma lookup_in_range {A} (l : list A) i :
  in_range i (length l) = true -> is_Some (l !! Z.to_nat i).
Proof. intros [_ H]%in_range_index. by apply lookup_lt_is_Some_2. Qed.

Lemma op_frame_remove_task w :
  op_frame w (fst (remove_task w)) (snd (remove_task w)).
Proof.
  rewrite remove_task_eq. cbv zeta.
  destruct (tasks w) as [|t ts] eqn:Hts; [solve_op_frame|]. rewrite <- Hts.
  destruct (stdin w) as [|line rest] eqn:Hin; [solve_op_frame|].
  destruct (Py.int line) as [pos|]; [|solve_op_frame].
  destruct (in_range _ _) eqn:E; [|solve_op_frame].
  destruct (lookup_in_range _ _ E) as [x ->]. solve_op_frame.
Qed.

Lemma op_frame_update_task_status w :
  op_frame w (fst (update_task_status w)) (snd (update_task_status w)).
Proof.
  rewrite update_task_status_eq. cbv zeta.
  destruct (tasks w) as [|t ts] eqn:Hts; [solve_op_frame|]. rewrite <- Hts.
  destruct (stdin w) as [|line rest] eqn:Hin; [solve_op_frame|].
  destruct (Py.int line) as [pos|]; [|solve_op_frame].
  destruct (in_range (pos - 1) _) eqn:E; [|solve_op_frame].
  destruct rest as [|line2 rest]; [solve_op_frame|].
  destruct (Py.int line2) as [k|]; [|solve_op_frame].
  destruct (in_range (k - 1) _) eqn:F; [|solve_op_frame].
  destruct (lookup_in_range _ _ E) as [x ->].
  destruct (lookup_in_range _ _ F) as [y ->]. solve_op_frame.
Qed.

Lemma main_turn_eq w :
  main_turn w =
  let prompt := "Choose an option (1-6): " in
  match stdin w with
  | [] => (Raise EOFError, asked prompt (shown w))
  | line :: _ => dispatch (Py.strip line) (answered prompt (shown w))
  end.
Proof.
  unfold main_turn. unfold bind at 1. rewrite display_menu_eq. fold (shown w).
  cbv zeta. assert (Hs : stdin (shown w) = stdin w) by done.
  destruct (stdin w) as [|line rest] eqn:Hin.
  - by rewrite bind_input_nil.
  - by rewrite (bind_input_cons _ _ _ line rest).
Qed.

(** A choice that is none of "1" to "6" falls through every branch. *)
Lemma dispatch_other choice w :
  choice ∉ menu_choices -> dispatch choice w = (Ret false, w).
Proof.
  intros H. unfold dispatch.
  repeat match goal with
         | |- context [String.eqb choice ?s] =>
             destruct (String.eqb_spec choice s) as [->|_];
             [exfalso; apply H; unfold menu_choices; set_solver|]
         end.
  reflexivity.
Qed.


Lemma bind_op_frame (op : M unit) w :
  op_frame w (fst (op w)) (snd (op w)) ->
  match bind op (fun _ => ret false) w with
  | (Ret b, w') =>
      b = false /\ files w' = files w /\ cwd w' = cwd w /\
      exists n, stdin w' = drop n (stdin w)
  | (Raise e, w') => e = EOFError /\ stdin w' = [] /\ files w' = files w
  end.
Proof.
  unfold bind, op_frame. destruct (op w) as [[[]|e] w']; cbn [fst snd ret].
  - intros (? & ? & _ & ? & _). done.
  - intros (? & ? & _ & ? & [?|[[= ->] ?]]); done.
Qed.

(** What one branch of the menu does to the world. *)
Lemma dispatch_outcome choice w :
  match dispatch choice w with
  | (Ret false, w') =>
      files w' = files w /\ cwd w' = cwd w /\ exists n, stdin w' = drop n (stdin w)
  | (Ret true, w') =>
      choice = "6" /\
      w' = printed "Tasks saved, Goodbye!"
             (with_files (<[resolve w default_filename := render (tasks w)]> (files w)) w)
  | (Raise e, w') => e = EOFError /\ stdin w' = [] /\ files w' = files w
  end.
Proof.
  unfold dispatch.
  destruct (String.eqb_spec choice "1") as [->|_].
  { pose proof (bind_op_frame _ w (op_frame_view_tasks w)) as H.
    destruct (bind view_tasks _ w) as [[b|e] w']; [|done].
    by destruct H as (-> & ?). }
  destruct (String.eqb_spec choice "2") as [->|_].
  { pose proof (bind_op_frame _ w (op_frame_add_task w)) as H.
    destruct (bind add_task _ w) as [[b|e] w']; [|done].
    by destruct H as (-> & ?). }
  destruct (String.eqb_spec choice "3") as [->|_].
  { cbn. repeat split; try done. by exists 0. }
  destruct (String.eqb_spec choice "4") as [->|_].
  { pose proof (bind_op_frame _ w (op_frame_update_task_status w)) as H.
    destruct (bind update_task_status _ w) as [[b|e] w']; [|done].
    by destruct H as (-> & ?). }
  destruct (String.eqb_spec choice "5") as [->|_].
  { pose proof (bind_op_frame _ w (op_frame_remove_task w)) as H.
    destruct (bind remove_task _ w) as [[b|e] w']; [|done].
    by destruct H as (-> & ?). }
  destruct (String.eqb_spec choice "6") as [->|_]; [done|].
  cbn. repeat split; try done. by exists 0.
Qed.

(** However the loop ends, it ends in one of the two ways. *)
Lemma main_loop_exit fuel w r w' :
  main_loop fuel w = Some (r, w') ->
  (r = Ret tt /\ normal_exit w w') \/
  (r = Raise EOFError /\ input_exhausted w w').
Proof.
  revert w. induction fuel as [|fuel IH]; intros w; [done|].
  cbn [main_loop]. rewrite main_turn_eq. cbv zeta.
  destruct (stdin w) as [|line rest] eqn:Hin.
  - intros [= <- <-]. right. by repeat split.
  - set (w1 := answered _ (shown w)).
    assert (Hw1 : stdin w1 = rest /\ files w1 = files w /\ cwd w1 = cwd w /\
                  tasks w1 = tasks w).
    { subst w1. unfold answered, asked, shown. world_simpl. by rewrite Hin. }
    destruct Hw1 as (Hw1 & Hf1 & Hc1 & Ht1).
    pose proof (dispatch_outcome (Py.strip line) w1) as H.
    destruct (dispatch (Py.strip line) w1) as [[[|]|e] w1'].
    + destruct H as [Hc ->]. intros [= <- <-]. left.
      split; [done|]. unfold normal_exit. world_simpl.
      split; [exists [], line; by rewrite Hw1|]. split; [done|].
      unfold resolve. rewrite ?Hf1, ?Hc1, ?Ht1. split; [done|]. apply last_snoc.
    + destruct H as (Hf & Hc & n & Hn). intros Hr.
      destruct (IH _ Hr) as [[-> (Hpre & Hcw & Hfs & Hl)]|[-> [He Hfs]]];
        [left|right].
      * split; [done|]. unfold normal_exit.
        split; [|split; [by rewrite Hcw, Hc|split; [|done]]].
        -- destruct Hpre as (pre & c & Hpre & Hc6).
           exists (line :: take n rest ++ pre), c. split; [|done].
           rewrite <- app_comm_cons, <- app_assoc, <- Hpre, Hn, Hw1.
           by rewrite take_drop.
        -- rewrite Hfs. unfold resolve. by rewrite Hc, Hc1, Hf, Hf1.
      * split; [done|]. split; [done|]. by rewrite Hfs, Hf, Hf1.
    + destruct H as (-> & He & Hf). intros [= <- <-].
      right. split; [done|]. split; [done|]. by rewrite Hf, Hf1.
Qed.







(** ** Where the file is *)

(** [load_tasks] and [save_tasks] take the name from the working
    directory of the process: the file that counts is independent of
    [script_path]. *)
Lemma default_file_in_cwd w :
  resolve w default_filename = OsPath.join (cwd w) "tasks.txt".
Proof. reflexivity. Qed.

(** C8 fails on the code.  The program is installed in /opt/app, where a
    saved task waits in tasks.txt, and is started in /home/u.
    [handle_file] names /opt/app/tasks.txt, but [main] never calls it: it
    loads nothing, and on exit writes /home/u/tasks.txt. *)
Theorem C8_default_file_location_divergence :
  let beside_program : gmap string string :=
    {[ "/opt/app/tasks.txt" := render [milk] ]} in
  let w := session [] ["6"] beside_program in
  fst (handle_file default_filename w) = Ret (Some "/opt/app/tasks.txt") /\
  file_records (render [milk]) = [milk] /\
  exists w',
    main 2 w = Some (Ret tt, w') /\ tasks w' = [] /\
    files w' !! "/opt/app/tasks.txt" = Some (render [milk]) /\
    files w' !! "/home/u/tasks.txt" = Some EmptyString.
Proof.
  split; [by vm_compute|]. split; [by vm_compute|].
  eexists. split; [vm_compute; reflexivity|]. by vm_compute.
Qed.

(** ** Sessions whose list can be read back *)

Lemma lstrip_strip s : Py.lstrip (Py.strip s) = Py.strip s.
Proof.
  unfold Py.strip. pose proof (lstrip_head s) as H.
  destruct (Py.lstrip s) as [|a x]; [done|].
  destruct (rstrip_head a x H) as [r ->]. by apply lstrip_fixed.
Qed.

Lemma plain_strip s : plain s = true -> plain (Py.strip s) = true.
Proof.
  intros (H1 & H2 & H3)%plain_elim. unfold plain.
  by rewrite !contains_strip.
Qed.

Lemma storable_iff t :
  storable t = true <->
  plain (task t) = true /\ plain (status t) = true /\
  plain (created_at t) = true /\ plain (status_updated_at t) = true /\
  Py.lstrip (task t) = task t /\
  Py.rstrip (status_updated_at t) = status_updated_at t.
Proof.
  unfold storable. rewrite !andb_true_iff, !String.eqb_eq. tauto.
Qed.

Lemma stamp_ok_elim s :
  stamp_ok s = true -> plain s = true /\ Py.rstrip s = s.
Proof. unfold stamp_ok. by rewrite andb_true_iff, String.eqb_eq. Qed.

Lemma statuses_plain i st : STATUSES !! i = Some st -> plain st = true.
Proof.
  intros H. apply list_elem_of_lookup_2 in H. unfold STATUSES in H.
  repeat (apply elem_of_cons in H as [->|H]; [reflexivity|]).
  by apply elem_of_nil in H.
Qed.

Lemma add_task_session_ok w : session_ok w -> session_ok (snd (add_task w)).
Proof.
  intros (Ht & Hi & Hc). rewrite add_task_eq. cbv zeta.
  destruct (stdin w) as [|line rest] eqn:Hin;
    [cbn [snd]; unfold session_ok; world_simpl; by rewrite Hin|].
  apply Forall_cons in Hi as [Hl Hrest].
  pose proof (plain_strip _ Hl) as Hp. pose proof (lstrip_strip line) as Hs.
  destruct (stamp_ok_elim _ (Hc (ticks w))) as [Hn1 Hn2].
  destruct (Py.strip line) as [|c title] eqn:E; cbn [snd]; unfold session_ok;
    world_simpl; rewrite ?Hin; cbn [tail]; [done|].
  repeat split; try done.
  apply Forall_app. split; [done|]. constructor; [|done].
  apply storable_iff. by cbn [task status created_at status_updated_at].
Qed.

Lemma remove_task_session_ok w :
  session_ok w -> session_ok (snd (remove_task w)).
Proof.
  intros (Ht & Hi & Hc).
  destruct (op_frame_remove_task w) as (_ & _ & Hclk & [n Hn] & _).
  split; [|split; [rewrite Hn; by apply Forall_drop|by rewrite Hclk]].
  rewrite remove_task_eq. cbv zeta.
  repeat case_match; cbn [snd]; world_simpl; known_tasks; try done.
  by apply Forall_delete.
Qed.

Lemma update_task_status_session_ok w :
  session_ok w -> session_ok (snd (update_task_status w)).
Proof.
  intros (Ht & Hi & Hc).
  destruct (op_frame_update_task_status w) as (_ & _ & Hclk & [n Hn] & _).
  split; [|split; [rewrite Hn; by apply Forall_drop|by rewrite Hclk]].
  destruct (stamp_ok_elim _ (Hc (ticks w))) as [Hn1 Hn2].
  rewrite update_task_status_eq. cbv zeta.
  repeat case_match; cbn [snd]; world_simpl; known_tasks; try done.
  apply Forall_insert; [done|].
  match goal with
  | Hst : STATUSES !! _ = Some ?s, Hlk : _ !! _ = Some ?t |- _ =>
      pose proof (statuses_plain _ _ Hst) as Hs;
      apply list_elem_of_lookup_2 in Hlk
  end.
  match goal with
  | Hin : ?t ∈ _, Hall : Forall _ _ |- _ =>
      pose proof (proj1 (Forall_forall _ _) Hall _ Hin) as Hok
  end.
  apply storable_iff in Hok as (? & ? & ? & ? & ? & ?).
  apply storable_iff. by cbn [task status created_at status_updated_at].
Qed.

Lemma dispatch_session_ok choice w :
  session_ok w -> session_ok (snd (dispatch choice w)).
Proof.
  intros H. unfold dispatch.
  repeat match goal with
         | |- context [String.eqb choice ?s] =>
             destruct (String.eqb_spec choice s) as [->|_]
         end; try done.
  - unfold bind. rewrite view_tasks_eq. done.
  - pose proof (add_task_session_ok w H) as H'. unfold bind.
    by destruct (add_task w) as [[[]|e] w'].
  - pose proof (update_task_status_session_ok w H) as H'. unfold bind.
    by destruct (update_task_status w) as [[[]|e] w'].
  - pose proof (remove_task_session_ok w H) as H'. unfold bind.
    by destruct (remove_task w) as [[[]|e] w'].
Qed.

Lemma main_turn_session_ok w :
  session_ok w -> session_ok (snd (main_turn w)).
Proof.
  intros (Ht & Hi & Hc). rewrite main_turn_eq. cbv zeta.
  destruct (stdin w) as [|line rest] eqn:Hin;
    [cbn [snd]; unfold session_ok, shown; world_simpl; by rewrite Hin|].
  apply dispatch_session_ok. unfold session_ok, shown. world_simpl.
  rewrite Hin. apply Forall_cons in Hi as [_ Hi]. done.
Qed.

Lemma main_loop_session_ok fuel w r w' :
  main_loop fuel w = Some (r, w') -> session_ok w -> session_ok w'.
Proof.
  revert w. induction fuel as [|fuel IH]; intros w; [done|].
  cbn [main_loop]. intros H Hok. apply main_turn_session_ok in Hok.
  destruct (main_turn w) as [[[|]|e] w1]; cbn [snd] in Hok.
  - by injection H as <- <-.
  - by eapply IH.
  - by injection H as <- <-.
Qed.

Lemma main_eq fuel w :
  main fuel w = main_loop fuel (snd (load_tasks default_filename w)).
Proof. unfold main. by rewrite load_tasks_eq. Qed.

Lemma load_tasks_session_ok filename w :
  session_ok w -> session_ok (snd (load_tasks filename w)).
Proof.
  intros (Ht & Hi & Hc). rewrite load_tasks_eq. cbn [snd].
  unfold session_ok. world_simpl. split; [|done].
  apply Forall_app. split; [done|apply file_records_storable].
Qed.

(** X9: a session that is left with "6" can be taken up again: when the
    tasks at the start are storable, the lines typed are plain and the
    clock yields storable readings, starting the program on the files the
    session leaves loads the very list the session ended with. *)
Theorem session_restart fuel w w' :
  session_ok w -> main fuel w = Some (Ret tt, w') ->
  load_tasks default_filename (with_tasks [] w') = (Ret tt, w').
Proof.
  intros Hok Hmain. rewrite main_eq in Hmain.
  apply (load_tasks_session_ok default_filename) in Hok.
  pose proof (main_loop_session_ok _ _ _ _ Hmain Hok) as (Hst & _).
  destruct (main_loop_exit _ _ _ _ Hmain) as [[_ Hex]|[[=] _]].
  destruct Hex as (_ & Hcwd & Hfs & _).
  rewrite load_tasks_eq. f_equal. world_simpl.
  assert (Hres : resolve (with_tasks [] w') default_filename
                 = resolve (snd (load_tasks default_filename w)) default_filename).
  { unfold resolve. world_simpl. by rewrite Hcwd. }
  rewrite Hres, Hfs, lookup_insert_eq. cbn [default app]. unfold id.
  rewrite file_records_render by done. by destruct w'.
Qed.

Lemma session_restart_witness :
  let w := World [] ["2"; " Bake bread "; "4"; "1"; "3"; "two"; "6"] []
             {[ "/home/u/tasks.txt" := two_line_file ]}
             "/home/u" "/opt/app/tasks_app.py"
             (fun _ => "2026-11-03 10:00:00") 0 (fun _ => None) in
  session_ok w /\
  exists w',
    main 8 w = Some (Ret tt, w') /\
    map task (tasks w') = ["Buy milk"; "Bake bread"] /\
    map status (tasks w') = ["In Progress"; "Open"] /\
    load_tasks default_filename (with_tasks [] w') = (Ret tt, w').
Proof.
  intros w.
  assert (Hok : session_ok w).
  { split; [constructor|]. split; [by repeat constructor|]. by intros n. }
  split; [exact Hok|].
  destruct (main 8 w) as [[[[]|e] w']|] eqn:Hmain; try (by vm_compute in Hmain).
  exists w'. split; [reflexivity|].
  split; [|split; [|exact (session_restart 8 w w' Hok Hmain)]].
  - vm_compute in Hmain. by injection Hmain as <-.
  - vm_compute in Hmain. by injection Hmain as <-.
Defined.

(** * Further properties of the program *)

(** ** Viewing *)

Lemma enumerate_lookup {A} (l : list A) start i x :
  l !! i = Some x -> enumerate start l !! i = Some (start + i, x).
Proof.
  revert start i. induction l as [|y l IH]; intros start [|i] H; try done.
  - simpl in *. injection H as ->. by rewrite Nat.add_0_r.
  - simpl in *. rewrite (IH (S start) i H). do 2 f_equal. lia.
Qed.

Lemma length_enumerate {A} (l : list A) start :
  length (enumerate start l) = length l.
Proof. revert start. induction l as [|y l IH]; intros start; simpl; auto. Qed.

(** X1: [view_tasks] returns normally and changes nothing but the
    output.  For an empty list it writes the single line "No tasks
    found!"; otherwise it writes a header and then one entry per task, in
    the order of the list, the task at index [i] under the number [i + 1].
    Viewing again writes the same listing again. *)
Theorem X1_view_tasks_read_only w :
  view_tasks w = (Ret tt, with_stdout (stdout w ++ view_output (tasks w)) w) /\
  (tasks w = [] -> view_output (tasks w) = ["No tasks found!" +:+ Py.nl]) /\
  (tasks w <> [] -> length (view_output (tasks w)) = S (length (tasks w))) /\
  (forall i t, tasks w !! i = Some t ->
     view_output (tasks w) !! S i = Some (view_line (S i, t) +:+ Py.nl)) /\
  snd (view_tasks (snd (view_tasks w)))
    = with_stdout (stdout w ++ view_output (tasks w) ++ view_output (tasks w)) w.
Proof.
  split; [apply view_tasks_eq|]. split; [by intros ->|]. split; [|split].
  - destruct (tasks w) as [|t ts]; [done|]. intros _. unfold view_output.
    cbn [length]. by rewrite length_map, length_enumerate.
  - intros i t Hi. destruct (tasks w) as [|t0 ts]; [done|].
    unfold view_output. cbn [lookup list_lookup].
    change (map (fun it => view_line it +:+ Py.nl) (enumerate 1 (t0 :: ts)) !! i
            = Some (view_line (S i, t) +:+ Py.nl)).
    by rewrite list_lookup_fmap, (enumerate_lookup _ 1 i t Hi).
  - rewrite !view_tasks_eq. cbn [snd]. world_simpl. destruct w; cbn.
    by rewrite <- app_assoc.
Qed.

(** ** Answers that are no numbers, empty lists, the end of the input *)

(** X2: on a list that is not empty, an answer that [int] rejects is
    caught: [remove_task] and [update_task_status] print "Please enter a
    valid number.", return normally and leave the list as it is.  The
    same holds in [update_task_status] when the position is valid and the
    status number is no number: the status and the time stamp stay, and
    the clock is not read. *)
Theorem X2_non_numeric_answer w line rest :
  tasks w <> [] -> stdin w = line :: rest ->
  let sorry := "Please enter a valid number." in
  (Py.int line = None ->
     remove_task w
       = (Ret tt, printed sorry
                    (answered "Enter the task number to remove: " (viewed w))) /\
     update_task_status w
       = (Ret tt, printed sorry
                    (answered "Enter the task number to update status: " (viewed w))) /\
     tasks (snd (remove_task w)) = tasks w /\
     tasks (snd (update_task_status w)) = tasks w) /\
  (forall pos line2 rest2,
     Py.int line = Some pos -> valid_position pos (length (tasks w)) ->
     rest = line2 :: rest2 -> Py.int line2 = None ->
     fst (update_task_status w) = Ret tt /\
     last (stdout (snd (update_task_status w))) = Some (sorry +:+ Py.nl) /\
     stdin (snd (update_task_status w)) = rest2 /\
     tasks (snd (update_task_status w)) = tasks w /\
     ticks (snd (update_task_status w)) = ticks w).
Proof.
  intros Hne Hin sorry. split.
  - intros Hint. rewrite remove_task_eq, update_task_status_eq, Hin, Hint.
    destruct (tasks w) as [|t ts] eqn:Hts; [done|].
    cbv zeta. cbn [fst snd]. world_simpl. by rewrite Hts.
  - intros pos line2 rest2 Hint Hv -> Hint2.
    rewrite update_task_status_eq, Hin, Hint, Hint2. cbv zeta.
    rewrite (proj2 (in_range_position _ _) Hv).
    destruct (tasks w) as [|t ts] eqn:Hts; [done|].
    cbn [fst snd]. unfold printed. world_simpl. rewrite Hin, Hts.
    split; [done|]. split; [apply last_snoc|done].
Qed.

Lemma X2_non_numeric_answer_witness :
  let w := session [milk; bread] ["two"; "6"] ∅ in
  tasks w <> [] /\ stdin w = ["two"; "6"] /\ Py.int "two" = None /\
  tasks (snd (remove_task w)) = [milk; bread] /\
  tasks (snd (update_task_status w)) = [milk; bread].
Proof.
  intros w. assert (Hne : tasks w <> []) by discriminate.
  split; [exact Hne|]. split; [reflexivity|]. split; [reflexivity|].
  destruct (X2_non_numeric_answer w "two" ["6"] Hne eq_refl) as [H _].
  destruct (H eq_refl) as (_ & _ & H1 & H2). split; [exact H1|exact H2].
Defined.

(** X3: on an empty list [remove_task] and [update_task_status] ask
    nothing: no line of the input is read, the list stays empty, and the
    only effect is the line "No tasks found!", followed in
    [update_task_status] by "No tasks available to update status.". *)
Theorem X3_empty_list_operations w :
  tasks w = [] ->
  remove_task w = (Ret tt, printed "No tasks found!" w) /\
  update_task_status w
    = (Ret tt, printed "No tasks available to update status."
                 (printed "No tasks found!" w)).
Proof.
  intros H. rewrite remove_task_eq, update_task_status_eq, H.
  unfold viewed, printed. by rewrite H.
Qed.

Lemma X3_empty_list_operations_witness :
  let w := session [] ["1"; "6"] ∅ in
  tasks w = [] /\ stdin (snd (remove_task w)) = ["1"; "6"] /\
  stdin (snd (update_task_status w)) = ["1"; "6"].
Proof.
  intros w. split; [reflexivity|].
  destruct (X3_empty_list_operations w eq_refl) as [-> ->]. by split.
Defined.

Lemma tail_drop_1 {A} (l : list A) : tail l = drop 1 l.
Proof. by destruct l. Qed.

Lemma answered_shown w :
  answered "Choose an option (1-6): " (shown w) = consumed 1 menu_output w.
Proof.
  unfold answered, asked, shown, consumed, menu_output. destruct w. cbn.
  by rewrite <- app_assoc, tail_drop_1.
Qed.

(** X4: choice "3" edits nothing.  The turn prints "Editing task
    functionality not implemented yet." after the menu and the prompt,
    uses up the one line of the choice, leaves the list, the files and
    the clock as they are, and the loop goes on. *)
Theorem X4_edit_not_implemented w c rest :
  stdin w = c :: rest -> Py.strip c = "3" ->
  main_turn w
  = (Ret false,
     printed "Editing task functionality not implemented yet."
       (consumed 1 menu_output w)).
Proof.
  intros Hin Hc. rewrite main_turn_eq, Hin. cbv zeta.
  by rewrite Hc, answered_shown.
Qed.

Lemma X4_edit_not_implemented_witness :
  let w := session [milk] [" 3 "; "6"] ∅ in
  stdin w = [" 3 "; "6"] /\ Py.strip " 3 " = "3" /\
  fst (main_turn w) = Ret false /\ tasks (snd (main_turn w)) = [milk] /\
  stdin (snd (main_turn w)) = ["6"].
Proof.
  intros w. split; [reflexivity|]. split; [reflexivity|].
  rewrite (X4_edit_not_implemented w " 3 " ["6"] eq_refl eq_refl).
  repeat split.
Defined.


(** X11: when the input has run out, every prompt raises [EOFError]: at
    the menu, in [add_task], and, on a list that is not empty, in
    [remove_task] and [update_task_status], whose handler for [ValueError]
    does not catch it.  The same happens in [update_task_status] when the
    input ends after a valid position.  In each case the list is as it
    was. *)
Theorem X11_end_of_input w :
  (stdin w = [] ->
   fst (main_turn w) = Raise EOFError /\
   fst (add_task w) = Raise EOFError /\ tasks (snd (add_task w)) = tasks w /\
   (tasks w <> [] ->
    fst (remove_task w) = Raise EOFError /\
    tasks (snd (remove_task w)) = tasks w /\
    fst (update_task_status w) = Raise EOFError /\
    tasks (snd (update_task_status w)) = tasks w)) /\
  (forall line pos,
     stdin w = [line] -> Py.int line = Some pos ->
     valid_position pos (length (tasks w)) ->
     fst (update_task_status w) = Raise EOFError /\
     tasks (snd (update_task_status w)) = tasks w /\
     ticks (snd (update_task_status w)) = ticks w).
Proof.
  split.
  - intros Hin. rewrite main_turn_eq, add_task_eq, remove_task_eq,
      update_task_status_eq, Hin. cbv zeta.
    do 3 (split; [done|]). intros Hne.
    destruct (tasks w) as [|t ts] eqn:Hts; [done|].
    cbn [fst snd]. world_simpl. by rewrite Hts.
  - intros line pos Hin Hint Hv.
    rewrite update_task_status_eq, Hin, Hint. cbv zeta.
    rewrite (proj2 (in_range_position _ _) Hv).
    destruct (tasks w) as [|t ts] eqn:Hts; [unfold valid_position in Hv; simpl in Hv; lia|].
    cbn [fst snd]. world_simpl. by rewrite Hts.
Qed.

Lemma X11_end_of_input_witness :
  let w := session [milk; bread] ["2"] ∅ in
  stdin w = ["2"] /\ Py.int "2" = Some 2%Z /\
  valid_position 2 (length (tasks w)) /\
  fst (update_task_status w) = Raise EOFError /\
  tasks (snd (update_task_status w)) = [milk; bread].
Proof.
  intros w.
  assert (Hv : valid_position 2 (length (tasks w))) by (unfold valid_position; simpl; lia).
  split; [reflexivity|]. split; [reflexivity|]. split; [exact Hv|].
  destruct (X11_end_of_input w) as [_ H].
  destruct (H "2" 2%Z eq_refl eq_refl Hv) as (H1 & H2 & _).
  split; [exact H1|exact H2].
Defined.

(** X13: whatever the session does and however it ends, [main] touches
    no file but tasks.txt in the working directory: every other path
    holds after the session what it held before. *)
Theorem X13_only_the_task_file fuel w r w' p :
  main fuel w = Some (r, w') -> p <> resolve w default_filename ->
  files w' !! p = files w !! p.
Proof.
  intros Hmain Hp. rewrite main_eq, load_tasks_eq in Hmain. cbn [snd] in Hmain.
  destruct (main_loop_exit _ _ _ _ Hmain)
    as [[_ (_ & _ & Hf & _)]|[_ [_ Hf]]]; rewrite Hf; [|done].
  by rewrite lookup_insert_ne.
Qed.

Lemma X13_only_the_task_file_witness :
  let fs : gmap string string :=
    {[ "/home/u/notes.txt" := "keep"; "/home/u/tasks.txt" := two_line_file ]} in
  let w := session [] ["5"; "1"; "6"] fs in
  exists w',
    main 4 w = Some (Ret tt, w') /\
    "/home/u/notes.txt" <> resolve w default_filename /\
    files w' !! "/home/u/notes.txt" = Some "keep".
Proof.
  intros fs w.
  destruct (main 4 w) as [[[[]|e] w']|] eqn:Hmain; try (by vm_compute in Hmain).
  exists w'. split; [reflexivity|].
  assert (Hp : "/home/u/notes.txt" <> resolve w default_filename) by discriminate.
  split; [exact Hp|].
  by rewrite (X13_only_the_task_file 4 w (Ret tt) w' _ Hmain Hp).
Defined.

(** ** Files *)

Lemma count_app c s r : count c (s +:+ r) = count c s + count c r.
Proof.
  induction s as [|a s IH]; [done|].
  rewrite append_cons. simpl. rewrite IH. lia.
Qed.

Lemma contains_count_pos c s : Py.contains c s = true -> 0 < count c s.
Proof.
  induction s as [|a s IH]; simpl; [done|].
  destruct (Ascii.eqb a c); simpl; [lia|auto].
Qed.

Lemma line_safe_elim t :
  line_safe t = true ->
  Py.contains Py.LF (record t) = false /\ Py.contains Py.CR (record t) = false.
Proof.
  unfold line_safe. cbn [forallb].
  rewrite !andb_true_iff, !negb_true_iff.
  intros ([? ?] & [? ?] & [? ?] & [? ?] & _).
  rewrite !record_contains. split; repeat (apply orb_false_intro; [|done]); done.
Qed.

Lemma storable_line_safe t : storable t = true -> line_safe t = true.
Proof.
  intros (H1 & H2 & H3 & H4 & _)%storable_elim.
  apply plain_elim in H1 as (_ & ? & ?), H2 as (_ & ? & ?),
    H3 as (_ & ? & ?), H4 as (_ & ? & ?).
  unfold line_safe. cbn [forallb].
  repeat match goal with H : Py.contains _ _ = false |- _ => rewrite H; clear H end.
  reflexivity.
Qed.

(** The lines of a saved file are the records of the tasks, in order. *)
Lemma file_lines_render ts :
  Forall (fun t => line_safe t = true) ts ->
  file_lines (render ts) = map (fun t => record t +:+ Py.nl) ts.
Proof.
  intros Hts. unfold file_lines.
  assert (Hcr : Py.contains Py.CR (render ts) = false).
  { induction Hts as [|t ts Ht _ IH]; [done|].
    rewrite render_cons, format_task_record, !contains_app, IH.
    by destruct (line_safe_elim t Ht) as [_ ->]. }
  rewrite universal_newlines_id by done. clear Hcr.
  induction Hts as [|t ts Ht _ IH]; [done|].
  rewrite render_cons, format_task_record, append_assoc.
  rewrite readlines_line by by apply line_safe_elim.
  cbn [map]. by rewrite IH.
Qed.

Lemma save_then_load filename w :
  Forall (fun t => storable t = true) (tasks w) ->
  load_tasks filename (with_tasks [] (snd (save_tasks filename w)))
  = (Ret tt, snd (save_tasks filename w)).
Proof.
  intros Hts. rewrite load_tasks_eq, save_tasks_eq. f_equal.
  cbn [snd]. unfold resolve. cbn [files cwd with_tasks with_files tasks].
  rewrite lookup_insert_eq. cbn [default app]. unfold id.
  rewrite file_records_render by done. by destruct w.
Qed.

Lemma reload_tasks filename w :
  tasks (snd (load_tasks filename (with_tasks [] (snd (save_tasks filename w)))))
  = file_records (render (tasks w)).
Proof.
  rewrite load_tasks_eq, save_tasks_eq. cbn [snd]. unfold resolve.
  cbn [files cwd with_tasks with_files tasks].
  by rewrite lookup_insert_eq.
Qed.

(** X5: whatever the file held before, after [save_tasks] it reads back
    as exactly one line per task, in the order of the list, each line the
    four fields joined by pipes and ended by a line feed, provided no
    field holds a line break; the list itself is as it was. *)
Theorem X5_save_writes_one_line_per_task filename w :
  Forall (fun t => line_safe t = true) (tasks w) ->
  let w' := snd (save_tasks filename w) in
  read_lines filename w'
    = (Ret (map (fun t => record t +:+ Py.nl) (tasks w)), w') /\
  tasks w' = tasks w.
Proof.
  intros H w'. subst w'. rewrite save_tasks_eq. cbn [snd]. split; [|done].
  unfold read_lines, resolve. world_simpl. rewrite lookup_insert_eq.
  cbn [default]. by rewrite <- (file_lines_render _ H).
Qed.

Lemma X5_save_writes_one_line_per_task_witness :
  let w := session [bread; milk] [] {[ "/home/u/tasks.txt" := two_line_file ]} in
  Forall (fun t => line_safe t = true) (tasks w) /\
  fst (read_lines default_filename (snd (save_tasks default_filename w)))
  = Ret ["Bake bread|Review|2026-11-02 09:30:00|2026-11-02 18:00:00" +:+ Py.nl;
         "Buy milk|Open|2026-11-02 09:00:00|2026-11-02 09:00:00" +:+ Py.nl].
Proof.
  intros w.
  assert (H : Forall (fun t => line_safe t = true) (tasks w)).
  { repeat constructor. }
  split; [exact H|].
  destruct (X5_save_writes_one_line_per_task default_filename w H) as [-> _].
  reflexivity.
Defined.

Lemma handle_file_eq filename w :
  handle_file filename w =
  let p := OsPath.join (OsPath.dirname (script_path w)) filename in
  match files w !! resolve w p with
  | Some _ => (Ret (Some p), w)
  | None =>
      match open_error w (resolve w p) with
      | None =>
          (Ret (Some p),
           with_files (<[resolve w p := EmptyString]> (files w)) w)
      | Some msg => (Ret None, printed ("Error handling file: " +:+ msg) w)
      end
  end.
Proof.
  unfold handle_file, try_except_Exception, bind, path_exists, create_empty,
    write_file, ret. cbv zeta.
  destruct (files w !! resolve w _) as [text|] eqn:E.
  - by rewrite bool_decide_true by eauto.
  - rewrite bool_decide_false by (by intros [? ?]). cbn [negb].
    by destruct (open_error w _).
Qed.

(** X6: [handle_file] never raises.  It returns the path of the name in
    the directory of the program exactly when the file is there
    afterwards: a file that is there is left as it is, with nothing
    else changed; a missing one is created empty; when it cannot be
    created, "Error handling file: " with the text of the error is
    printed, [None] is returned and no file is made.  The task list and
    the input are never touched, and after a success a second call
    changes nothing. *)
Theorem X6_handle_file_ensures filename w :
  let p := OsPath.join (OsPath.dirname (script_path w)) filename in
  let w' := snd (handle_file filename w) in
  (fst (handle_file filename w) = Ret (Some p) \/
   fst (handle_file filename w) = Ret None) /\
  (fst (handle_file filename w) = Ret (Some p) <->
   is_Some (files w' !! resolve w p)) /\
  (is_Some (files w !! resolve w p) ->
   handle_file filename w = (Ret (Some p), w)) /\
  (files w !! resolve w p = None -> open_error w (resolve w p) = None ->
   files w' !! resolve w p = Some EmptyString /\ stdout w' = stdout w) /\
  (forall msg,
     files w !! resolve w p = None -> open_error w (resolve w p) = Some msg ->
     handle_file filename w
       = (Ret None, printed ("Error handling file: " +:+ msg) w)) /\
  tasks w' = tasks w /\ stdin w' = stdin w /\
  (fst (handle_file filename w) = Ret (Some p) ->
   handle_file filename w' = (Ret (Some p), w')).
Proof.
  intros p w'. subst w'. rewrite (handle_file_eq filename w). cbv zeta. fold p.
  destruct (files w !! resolve w p) as [text|] eqn:E.
  - cbn [fst snd]. rewrite E.
    split; [by left|]. split; [split; eauto|]. split; [done|].
    split; [done|]. split; [done|]. split; [done|]. split; [done|].
    intros _. rewrite handle_file_eq. cbv zeta. fold p. by rewrite E.
  - destruct (open_error w (resolve w p)) as [msg|] eqn:Eo; cbn [fst snd].
    + unfold printed. world_simpl. rewrite E.
      split; [by right|]. split; [split; [done|by intros [? ?]]|].
      split; [by intros [? ?]|]. split; [done|].
      split; [by intros ? _ [= ->]|]. done.
    + world_simpl. rewrite lookup_insert_eq.
      split; [by left|]. split; [split; eauto|].
      split; [by intros [? ?]|]. split; [done|]. split; [done|].
      split; [done|]. split; [done|]. intros _.
      rewrite handle_file_eq. cbv zeta. unfold resolve. world_simpl.
      fold p. fold (resolve w p). by rewrite lookup_insert_eq.
Qed.

(** The program cannot create tasks.txt in a directory that is not
    there: the error is reported and no path is returned. *)
Example handle_file_missing_directory :
  let w := World [milk] [] [] ∅ "/home/u" "/opt/app/tasks_app.py"
             sample_clock 0 missing_directory in
  handle_file "nodir/tasks.txt" w
  = (Ret None,
     printed ("Error handling file: [Errno 2] No such file or directory: "
              +:+ "'/opt/app/nodir/tasks.txt'") w).
Proof. reflexivity. Qed.

(** X7: a file that is missing, is empty or has no line of four fields
    makes [load_tasks] a no-op: it returns normally, the list is as it
    was, and a missing file is not created. *)
Theorem X7_load_without_records filename w :
  Forall (fun l => length (Py.split "|" l) <> 4)
    (file_lines (default EmptyString (files w !! resolve w filename))) ->
  load_tasks filename w = (Ret tt, w).
Proof.
  intros H. rewrite load_tasks_eq. f_equal. unfold file_records.
  induction H as [|l ls Hl _ IH]; [by rewrite app_nil_r, with_tasks_id|].
  cbn [omap list_omap].
  destruct (parse_line l) as [t|] eqn:E; [|exact IH].
  exfalso. apply Hl, parse_line_fields. eauto.
Qed.

Lemma X7_load_without_records_witness :
  let w := session [milk] [] {[ "/home/u/other.txt" := two_line_file ]} in
  Forall (fun l => length (Py.split "|" l) <> 4)
    (file_lines (default EmptyString (files w !! resolve w default_filename))) /\
  load_tasks default_filename w = (Ret tt, w) /\
  files w !! "/home/u/tasks.txt" = None.
Proof.
  intros w.
  assert (H : Forall (fun l => length (Py.split "|" l) <> 4)
                (file_lines (default EmptyString
                               (files w !! resolve w default_filename)))).
  { constructor. }
  split; [exact H|]. split; [|reflexivity].
  exact (X7_load_without_records default_filename w H).
Defined.

(** X8: whatever the file holds, the tasks [load_tasks] reads from it are
    storable: no field holds a pipe or a line break, no title starts and
    no [status_updated_at] ends with white space.  So a list loaded
    from any file, once saved, loads again as the same list. *)
Theorem X8_loaded_tasks_are_stable filename w :
  let w1 := snd (load_tasks filename (with_tasks [] w)) in
  Forall (fun t => storable t = true) (tasks w1) /\
  load_tasks filename (with_tasks [] (snd (save_tasks filename w1)))
  = (Ret tt, snd (save_tasks filename w1)).
Proof.
  intros w1.
  assert (H : Forall (fun t => storable t = true) (tasks w1)).
  { subst w1. rewrite load_tasks_eq. cbn [snd]. world_simpl.
    apply file_records_storable. }
  split; [exact H|]. by apply save_then_load.
Qed.

Lemma record_count t :
  count "|" (record t) =
  3 + count "|" (task t) + count "|" (status t) + count "|" (created_at t) +
  count "|" (status_updated_at t).
Proof.
  unfold record, Py.join.
  repeat (rewrite count_app; cbn [count Ascii.eqb Bool.eqb]). lia.
Qed.

Lemma parse_piped t : piped t = true -> parse_line (record t +:+ Py.nl) = None.
Proof.
  intros Hp. destruct (parse_line _) as [x|] eqn:E; [exfalso|done].
  assert (Hl : length (Py.split "|" (record t +:+ Py.nl)) = 4).
  { apply parse_line_fields. eauto. }
  rewrite split_length, count_app, record_count in Hl.
  unfold piped in Hp. cbn [existsb] in Hp.
  repeat (apply orb_true_iff in Hp as [Hp|Hp];
          [apply contains_count_pos in Hp; lia|]).
  done.
Qed.

Lemma file_records_render_safe ts :
  Forall (fun t => line_safe t = true) ts ->
  file_records (render ts)
  = omap (fun t => parse_line (record t +:+ Py.nl)) ts.
Proof.
  intros H. unfold file_records. rewrite file_lines_render by done.
  clear H. induction ts as [|t ts IH]; [done|].
  cbn [map omap list_omap]. fold (@omap list _ _ _ parse_line).
  by rewrite IH.
Qed.

Lemma omap_parse_storable ts :
  Forall (fun t => storable t = true) ts ->
  omap (fun t => parse_line (record t +:+ Py.nl)) ts = ts.
Proof.
  induction 1 as [|t ts Ht _ IH]; [done|].
  cbn [omap list_omap]. rewrite parse_record by done. by f_equal.
Qed.

(** X12: a task with a pipe in one of its fields and no line break is
    lost on the way through the file: its line has more than four fields
    and [load_tasks] skips it, while the storable tasks before and behind
    it come back as they were, now next to each other. *)
Theorem X12_piped_task_is_dropped filename w ts1 t ts2 :
  tasks w = ts1 ++ t :: ts2 ->
  Forall (fun t => storable t = true) ts1 ->
  Forall (fun t => storable t = true) ts2 ->
  line_safe t = true -> piped t = true ->
  tasks (snd (load_tasks filename (with_tasks [] (snd (save_tasks filename w)))))
  = ts1 ++ ts2.
Proof.
  intros Hts H1 H2 Hs Hp. rewrite reload_tasks, Hts.
  rewrite file_records_render_safe.
  - rewrite omap_app. cbn [omap list_omap].
    rewrite parse_piped by done.
    by rewrite !omap_parse_storable.
  - apply Forall_app. split; [|constructor; [done|]];
      (eapply Forall_impl; [eassumption|]); apply storable_line_safe.
Qed.

Lemma X12_piped_task_is_dropped_witness :
  let w := session [milk; piped_title; bread] [] ∅ in
  tasks w = [milk] ++ piped_title :: [bread] /\
  Forall (fun t => storable t = true) [milk] /\
  Forall (fun t => storable t = true) [bread] /\
  line_safe piped_title = true /\ piped piped_title = true /\
  tasks (snd (load_tasks default_filename
                (with_tasks [] (snd (save_tasks default_filename w)))))
  = [milk; bread].
Proof.
  intros w.
  assert (H1 : Forall (fun t => storable t = true) [milk]) by (repeat constructor).
  assert (H2 : Forall (fun t => storable t = true) [bread]) by (repeat constructor).
  split; [reflexivity|]. split; [exact H1|]. split; [exact H2|].
  split; [reflexivity|]. split; [reflexivity|].
  exact (X12_piped_task_is_dropped default_filename w [milk] piped_title [bread]
           eq_refl H1 H2 eq_refl eq_refl).
Defined.

(** X15: saving a list and loading the file into an empty list gives
    back the same list exactly when every task of it is storable. *)
Theorem X15_round_trip_exactly_storable filename w :
  tasks (snd (load_tasks filename (with_tasks [] (snd (save_tasks filename w)))))
    = tasks w <->
  Forall (fun t => storable t = true) (tasks w).
Proof.
  rewrite reload_tasks. split.
  - intros <-. apply file_records_storable.
  - apply file_records_render.
Qed.

(** ** How operations compose *)

(** X14: [update_task_status] does not look at the status a task has:
    choosing for a task the status it already has leaves the status,
    takes a new clock reading as [status_updated_at] all the same, and
    confirms the update. *)
Theorem X14_same_status_refreshes_stamp w line line2 rest pos k t :
  stdin w = line :: line2 :: rest ->
  Py.int line = Some pos -> Py.int line2 = Some k ->
  valid_position pos (length (tasks w)) ->
  valid_position k (length STATUSES) ->
  tasks w !! Z.to_nat (pos - 1) = Some t ->
  STATUSES !! Z.to_nat (k - 1) = Some (status t) ->
  fst (update_task_status w) = Ret tt /\
  tasks (snd (update_task_status w))
    = <[Z.to_nat (pos - 1) :=
          mkTask (task t) (status t) (created_at t) (clock w (ticks w))]> (tasks w) /\
  last (stdout (snd (update_task_status w)))
    = Some (("Task '" +:+ task t +:+ "' status updated.") +:+ Py.nl).
Proof.
  intros Hin Hpos Hk Hv Hkv Ht Hs.
  rewrite update_task_status_eq, Hin, Hpos, Hk. cbv zeta.
  rewrite (proj2 (in_range_position _ _) Hv), (proj2 (in_range_position _ _) Hkv).
  rewrite Ht, Hs.
  destruct (tasks w) as [|t0 ts] eqn:Hts; [done|]. rewrite <- Hts.
  cbn [fst snd]. unfold printed. world_simpl.
  split; [done|]. split; [done|]. apply last_snoc.
Qed.

Lemma X14_same_status_refreshes_stamp_witness :
  let w := session [milk; bread] ["1"; "1"] ∅ in
  stdin w = ["1"; "1"] /\ Py.int "1" = Some 1%Z /\
  valid_position 1 (length (tasks w)) /\ valid_position 1 (length STATUSES) /\
  tasks w !! 0 = Some milk /\ STATUSES !! 0 = Some (status milk) /\
  tasks (snd (update_task_status w))
    = [mkTask "Buy milk" "Open" "2026-11-02 09:00:00" "2026-11-03 10:00:00"; bread].
Proof.
  intros w.
  assert (Hv : valid_position 1 (length (tasks w))) by (unfold valid_position; simpl; lia).
  assert (Hk : valid_position 1 (length STATUSES)) by (unfold valid_position; simpl; lia).
  split; [reflexivity|]. split; [reflexivity|]. split; [exact Hv|].
  split; [exact Hk|]. split; [reflexivity|]. split; [reflexivity|].
  destruct (X14_same_status_refreshes_stamp w "1" "1" [] 1%Z 1%Z milk
              eq_refl eq_refl eq_refl Hv Hk eq_refl eq_refl) as (_ & H & _).
  rewrite H. reflexivity.
Defined.

(** X16: adding a task and then removing the last position gives back
    the list as it was before: the new task sits at the end, under the
    number length + 1, and removing that number takes out it alone. *)
Theorem X16_add_then_remove_last w line line2 rest :
  stdin w = line :: line2 :: rest ->
  Py.strip line <> EmptyString ->
  Py.int line2 = Some (Z.of_nat (length (tasks w)) + 1)%Z ->
  fst (remove_task (snd (add_task w))) = Ret tt /\
  tasks (snd (remove_task (snd (add_task w)))) = tasks w /\
  stdin (snd (remove_task (snd (add_task w)))) = rest.
Proof.
  intros Hin Hne Hint. rewrite add_task_eq, Hin. cbv zeta.
  destruct (Py.strip line) as [|c title] eqn:E; [done|]. cbn [snd].
  set (t := mkTask _ _ _ _). set (w1 := printed _ _).
  assert (Ht1 : tasks w1 = tasks w ++ [t]) by done.
  assert (Hi1 : stdin w1 = line2 :: rest).
  { subst w1. unfold printed. world_simpl. by rewrite Hin. }
  rewrite remove_task_eq, Ht1, Hi1, Hint. cbv zeta.
  assert (Hr : in_range (Z.of_nat (length (tasks w)) + 1 - 1)
                 (length (tasks w ++ [t])) = true).
  { apply in_range_position. unfold valid_position.
    rewrite length_app. simpl. lia. }
  rewrite Hr.
  replace (Z.to_nat (Z.of_nat (length (tasks w)) + 1 - 1))
    with (length (tasks w)) by lia.
  rewrite (list_lookup_middle (tasks w) [] t _ eq_refl).
  destruct (tasks w ++ [t]) eqn:Happ; [by destruct (tasks w)|]. rewrite <- Happ.
  cbn [fst snd]. unfold printed. world_simpl.
  split; [done|]. split; [|by rewrite Hi1].
  by rewrite (delete_middle (tasks w) [] t), app_nil_r.
Qed.

Lemma X16_add_then_remove_last_witness :
  let w := session [milk; bread] ["Call Ann"; "3"; "6"] ∅ in
  stdin w = ["Call Ann"; "3"; "6"] /\ Py.strip "Call Ann" <> EmptyString /\
  Py.int "3" = Some (Z.of_nat (length (tasks w)) + 1)%Z /\
  tasks (snd (remove_task (snd (add_task w)))) = [milk; bread].
Proof.
  intros w.
  assert (Hne : Py.strip "Call Ann" <> EmptyString) by discriminate.
  split; [reflexivity|]. split; [exact Hne|]. split; [reflexivity|].
  destruct (X16_add_then_remove_last w "Call Ann" "3" ["6"] eq_refl Hne eq_refl)
    as (_ & H & _).
  exact H.
Defined.

(** X17: the menu compares the trimmed line with the texts "1" to "6"
    and with nothing else.  A line that trims to any other text, also one
    that [int] would read as a number from 1 to 6 such as "01" or "+2",
    starts no operation: the turn only shows the menu and the prompt,
    uses up that line, and the loop goes on with the list, the files and
    the clock as they were. *)
Theorem X17_choices_are_texts w c rest :
  stdin w = c :: rest -> Py.strip c ∉ menu_choices ->
  main_turn w = (Ret false, consumed 1 menu_output w).
Proof.
  intros Hin Hc. rewrite main_turn_eq, Hin. cbv zeta.
  by rewrite dispatch_other, answered_shown.
Qed.

Lemma X17_choices_are_texts_witness :
  let w := session [milk] ["01"; "6"] ∅ in
  stdin w = ["01"; "6"] /\ Py.int "01" = Some 1%Z /\
  (Py.strip "01" ∉ menu_choices) /\
  fst (main_turn w) = Ret false /\ tasks (snd (main_turn w)) = [milk] /\
  files (snd (main_turn w)) = ∅ /\ stdin (snd (main_turn w)) = ["6"].
Proof.
  intros w.
  assert (Hc : Py.strip "01" ∉ menu_choices).
  { intros H. unfold menu_choices in H.
    repeat (apply elem_of_cons in H as [H|H]; [discriminate|]).
    by apply elem_of_nil in H. }
  split; [reflexivity|]. split; [reflexivity|]. split; [exact Hc|].
  rewrite (X17_choices_are_texts w "01" ["6"] eq_refl Hc). repeat split.
Defined.
